(** * Auto Fibonacci indicator and its bar acquisition: a shallow embedding

    The development follows [src/cpp/AutoFibIndicator.cpp] (the Fibonacci
    engine) and [src/cpp/IBKRAutoFibClient.cpp] (the acquisition of bars from
    the broker callbacks) function by function.

    Conventions of the embedding:
    - [int] is [Z]; the two places where the code adds two [int]s or casts a
      [size_t] to [int] go through [CInt.wrap], the two's-complement result.
    - [double] is an exact rational ([Qc], in canonical form so that equality
      is Leibniz equality).  The specification takes prices to be positive
      reals; infinities and NaN are left out.  Exact rationals do not round:
      the statements proved over them are the ones that rounding to nearest
      keeps (comparisons of inputs, control flow, monotonicity with [<=],
      equality of one expression with itself), and the module [Binary64]
      repeats the engine over the binary64 numbers, to run it where rounding
      decides.
    - [std::string] is [string]; [operator>] on strings is the lexicographic
      comparison of the bytes, [String.compare].
    - [std::map<std::string,double>] is [gmap string Qc]; [operator[]] inserts
      a zero under a missing key and is written out as [map_index].
    - Reading a vector outside its bounds is undefined in C++: the embedding
      returns [None] there, so every function that indexes a vector is in the
      [option] monad and [Some] means "the call is defined and returns".
    - The member functions mutate the object; here they take the object and
      return the new one next to their result.
    - Console output is not modelled; of [printReport] the content is, as
      data. *)

From Stdlib Require Import ZArith QArith Qcanon String Floats.
From stdpp Require Import base numbers option list strings gmap sorting.

Local Open Scope Z_scope.

Set Warnings "-inexact-float".

(** ** Machine integers *)

Module CInt.

Definition INT_MAX : Z := 2 ^ 31 - 1.
Definition INT_MIN : Z := - 2 ^ 31.

(** Two's-complement reduction of a mathematical integer to 32 bits. *)
Definition wrap (z : Z) : Z := (z + 2 ^ 31) mod 2 ^ 32 - 2 ^ 31.

(** [a + b] on [int]. *)
Definition add (a b : Z) : Z := wrap (a + b).

(** [static_cast<int>(v.size())]. *)
Definition of_size (n : nat) : Z := wrap (Z.of_nat n).

End CInt.

(** ** Doubles and strings *)

(** A [double] literal. *)
Definition dbl (q : Q) : Qc := Q2Qc q.

Definition dlt (x y : Qc) : bool := bool_decide (x < y)%Qc.
Definition dle (x y : Qc) : bool := bool_decide (x ≤ y)%Qc.

(** [a > b] on [std::string]. *)
Definition string_gt (a b : string) : bool :=
  match String.compare a b with
  | Gt => true
  | _ => false
  end.

(** [m[k]] on a non-const [std::map<std::string,double>]: the value under
    [k], after a zero has been inserted when [k] was missing. *)
Definition map_index (m : gmap string Qc) (k : string) : Qc * gmap string Qc :=
  match m !! k with
  | Some v => (v, m)
  | None => (dbl 0, <[k := dbl 0]> m)
  end.

(** ** Data model *)

(** Modelled from the spec: the [Bar] struct comes from the broker API header
    [bar.h], which is not part of the sources; the fields are those of the
    specification's data model (the code reads [time], [high], [low] and
    [close]). *)
Record Bar : Type := mkBar {
  time : string;
  open : Qc;
  high : Qc;
  low : Qc;
  close : Qc;
  volume : Qc
}.

Record FibonacciResults : Type := mkFibonacciResults {
  timestamp : string;
  trend : string;
  high_value : Qc;
  low_value : Qc;
  high_time : string;
  low_time : string;
  high_bar_index : Z;
  low_bar_index : Z;
  fibo_range : Qc;
  fibo_levels : gmap string Qc;
  golden_zone_low : Qc;
  golden_zone_high : Qc;
  current_price : Qc;
  price_in_golden_zone : bool;
  error : string
}.

(** [FibonacciResults()] followed by [results.error = e]; the empty string
    gives the default-constructed value itself. *)
Definition error_results (e : string) : FibonacciResults :=
  {| timestamp := ""; trend := "";
     high_value := dbl 0; low_value := dbl 0;
     high_time := ""; low_time := "";
     high_bar_index := 0; low_bar_index := 0;
     fibo_range := dbl 0; fibo_levels := ∅;
     golden_zone_low := dbl 0; golden_zone_high := dbl 0;
     current_price := dbl 0; price_in_golden_zone := false;
     error := e |}.

Definition FibonacciResults_new : FibonacciResults := error_results "".

Record AutoFibIndicator : Type := mkAutoFibIndicator {
  bars_back : Z;
  start_bar : Z;
  fibo_level_values : gmap string Qc;
  last_lowest_bar : Z;
  last_highest_bar : Z;
  last_high_value : Qc;
  last_low_value : Qc;
  last_is_bullish : bool;
  results : FibonacciResults
}.

(** The ten default ratios installed by the constructor. *)
Definition default_levels : gmap string Qc :=
  <["level_9" := dbl 2.618]> (<["level_8" := dbl 1.618]> (
  <["level_7" := dbl 1.000]> (<["level_6" := dbl 0.886]> (
  <["level_5" := dbl 0.764]> (<["level_4" := dbl 0.618]> (
  <["level_3" := dbl 0.500]> (<["level_2" := dbl 0.382]> (
  <["level_1" := dbl 0.236]> (<["level_0" := dbl 0.000]> ∅))))))))).

(** [AutoFibIndicator::AutoFibIndicator(barsBack, startBar)]. *)
Definition AutoFibIndicator_new (barsBack startBar : Z) : AutoFibIndicator :=
  {| bars_back := barsBack; start_bar := startBar;
     fibo_level_values := default_levels;
     last_lowest_bar := -1; last_highest_bar := -1;
     last_high_value := dbl 0; last_low_value := dbl 0;
     last_is_bullish := true;
     results := FibonacciResults_new |}.

Definition setFibonacciLevels (self : AutoFibIndicator) (levels : gmap string Qc)
  : AutoFibIndicator :=
  {| bars_back := bars_back self; start_bar := start_bar self;
     fibo_level_values := levels;
     last_lowest_bar := last_lowest_bar self;
     last_highest_bar := last_highest_bar self;
     last_high_value := last_high_value self;
     last_low_value := last_low_value self;
     last_is_bullish := last_is_bullish self;
     results := results self |}.

(** ** The engine *)

(** [bars[i]] for an [int] index. *)
Definition bar_at (bars : list Bar) (i : Z) : option Bar :=
  if i <? 0 then None else bars !! Z.to_nat i.

(** The loop of [findLowestBar]: [n] iterations remain, [i] is the loop
    variable. *)
Fixpoint lowest_scan (bars : list Bar) (n : nat) (i lowest_idx : Z)
    (lowest_value : Qc) : option Z :=
  match n with
  | O => Some lowest_idx
  | S n' =>
      b ← bar_at bars i;
      if dlt (low b) lowest_value
      then lowest_scan bars n' (i + 1) i (low b)
      else lowest_scan bars n' (i + 1) lowest_idx lowest_value
  end.

Definition findLowestBar (bars : list Bar) (start count : Z) : option Z :=
  if (start <? 0) || (count <=? 0)
     || (CInt.of_size (length bars) <? CInt.add start count)
  then Some (-1)
  else
    first ← bar_at bars start;
    lowest_scan bars (Z.to_nat (CInt.add start count - start))
                start start (low first).

(** The loop of [findHighestBar]. *)
Fixpoint highest_scan (bars : list Bar) (n : nat) (i highest_idx : Z)
    (highest_value : Qc) : option Z :=
  match n with
  | O => Some highest_idx
  | S n' =>
      b ← bar_at bars i;
      if dlt highest_value (high b)
      then highest_scan bars n' (i + 1) i (high b)
      else highest_scan bars n' (i + 1) highest_idx highest_value
  end.

Definition findHighestBar (bars : list Bar) (start count : Z) : option Z :=
  if (start <? 0) || (count <=? 0)
     || (CInt.of_size (length bars) <? CInt.add start count)
  then Some (-1)
  else
    first ← bar_at bars start;
    highest_scan bars (Z.to_nat (CInt.add start count - start))
                 start start (high first).

(** The object after [results = r]. *)
Definition store_results (self : AutoFibIndicator) (r : FibonacciResults)
  : AutoFibIndicator :=
  {| bars_back := bars_back self; start_bar := start_bar self;
     fibo_level_values := fibo_level_values self;
     last_lowest_bar := last_lowest_bar self;
     last_highest_bar := last_highest_bar self;
     last_high_value := last_high_value self;
     last_low_value := last_low_value self;
     last_is_bullish := last_is_bullish self;
     results := r |}.

(** [AutoFibIndicator::calculate].  [now] is what [getCurrentTimestamp]
    returns during this call: the wall clock, formatted to the second. *)
Definition calculate (self : AutoFibIndicator) (now : string) (bars : list Bar)
  : option (FibonacciResults * AutoFibIndicator) :=
  if CInt.of_size (length bars) <? CInt.add (bars_back self) (start_bar self)
  then
    let r := error_results "Not enough bars" in
    Some (r, store_results self r)
  else
    lowest_idx ← findLowestBar bars (start_bar self) (bars_back self);
    highest_idx ← findHighestBar bars (start_bar self) (bars_back self);
    if (lowest_idx <? 0) || (highest_idx <? 0)
    then
      let r := error_results "Could not find highest/lowest bar" in
      Some (r, store_results self r)
    else
      hb ← bar_at bars highest_idx;
      lb ← bar_at bars lowest_idx;
      let high_val := high hb in
      let low_val := low lb in
      if dle high_val (dbl 0) || dle low_val (dbl 0) || dle high_val low_val
      then
        let r := error_results "Invalid price data" in
        Some (r, store_results self r)
      else
        let is_bullish := string_gt (time hb) (time lb) in
        let range := (high_val - low_val)%Qc in
        let fibo_prices :=
          if is_bullish
          then (λ ratio, low_val + range * ratio)%Qc <$> fibo_level_values self
          else (λ ratio, high_val - range * ratio)%Qc <$> fibo_level_values self in
        let '(zone_low, zone_high, levels) :=
          if is_bullish
          then
            let '(ratio_2, levels_2) := map_index (fibo_level_values self) "level_2" in
            let '(ratio_4, levels_4) := map_index levels_2 "level_4" in
            ((low_val + range * ratio_2)%Qc, (low_val + range * ratio_4)%Qc, levels_4)
          else
            let '(ratio_4, levels_4) := map_index (fibo_level_values self) "level_4" in
            let '(ratio_2, levels_2) := map_index levels_4 "level_2" in
            ((high_val - range * ratio_4)%Qc, (high_val - range * ratio_2)%Qc, levels_2) in
        back ← last bars;
        let price := close back in
        let r :=
          {| timestamp := now;
             trend := if is_bullish then "BULLISH" else "BEARISH";
             high_value := high_val; low_value := low_val;
             high_time := time hb; low_time := time lb;
             high_bar_index := highest_idx; low_bar_index := lowest_idx;
             fibo_range := range; fibo_levels := fibo_prices;
             golden_zone_low := zone_low; golden_zone_high := zone_high;
             current_price := price;
             price_in_golden_zone := dle zone_low price && dle price zone_high;
             error := "" |} in
        Some (r,
              {| bars_back := bars_back self; start_bar := start_bar self;
                 fibo_level_values := levels;
                 last_lowest_bar := lowest_idx;
                 last_highest_bar := highest_idx;
                 last_high_value := high_val;
                 last_low_value := low_val;
                 last_is_bullish := is_bullish;
                 results := r |}).

(** [AutoFibIndicator::getSignal]. *)
Definition getSignal (self : AutoFibIndicator) : string :=
  if negb (String.eqb (error (results self)) "") then "NO_DATA"
  else if price_in_golden_zone (results self) then
    if String.eqb (trend (results self)) "BULLISH" then "BUY" else "SELL"
  else "HOLD".

(** ** The client: acquisition of the bars *)

(** The members of [IBKRAutoFibClient] that the acquisition uses.  The socket,
    the reader and the synchronisation objects are the broker library's. *)
Record IBKRAutoFibClient : Type := mkIBKRAutoFibClient {
  historical_data : list Bar;
  data_ready : bool;
  data_end_received : bool;
  next_order_id : Z;
  indicator : AutoFibIndicator
}.

(** [IBKRAutoFibClient::IBKRAutoFibClient()]. *)
Definition IBKRAutoFibClient_new : IBKRAutoFibClient :=
  {| historical_data := []; data_ready := false; data_end_received := false;
     next_order_id := 0; indicator := AutoFibIndicator_new 20 0 |}.

(** The broker callbacks that the reader dispatches to the client and that
    have a body in the source; every other callback is empty. *)
Inductive Callback : Type :=
  | CbHistoricalData (reqId : Z) (bar : Bar)
  | CbHistoricalDataEnd (reqId : Z) (startDateStr endDateStr : string)
  | CbError (id errorCode : Z) (errorString : string)
  | CbNextValidId (orderId : Z).

Definition historicalData (self : IBKRAutoFibClient) (reqId : Z) (bar : Bar)
  : IBKRAutoFibClient :=
  {| historical_data := historical_data self ++ [bar];
     data_ready := data_ready self;
     data_end_received := data_end_received self;
     next_order_id := next_order_id self;
     indicator := indicator self |}.

Definition historicalDataEnd (self : IBKRAutoFibClient) (reqId : Z)
    (startDateStr endDateStr : string) : IBKRAutoFibClient :=
  {| historical_data := historical_data self;
     data_ready := true;
     data_end_received := true;
     next_order_id := next_order_id self;
     indicator := indicator self |}.

Definition nextValidId (self : IBKRAutoFibClient) (orderId : Z)
  : IBKRAutoFibClient :=
  {| historical_data := historical_data self;
     data_ready := data_ready self;
     data_end_received := data_end_received self;
     next_order_id := orderId;
     indicator := indicator self |}.

Definition dispatch (self : IBKRAutoFibClient) (cb : Callback)
  : IBKRAutoFibClient :=
  match cb with
  | CbHistoricalData reqId bar => historicalData self reqId bar
  | CbHistoricalDataEnd reqId s e => historicalDataEnd self reqId s e
  | CbError _ _ _ => self
  | CbNextValidId orderId => nextValidId self orderId
  end.

(** [reader->processMsgs()]: the callbacks of one batch of decoded messages,
    in order. *)
Definition processMsgs (self : IBKRAutoFibClient) (batch : list Callback)
  : IBKRAutoFibClient :=
  foldl dispatch self batch.

(** [requestHistoricalData]: [connected] is the answer of [isConnected()].
    The request itself goes to the socket; what remains is the reset of the
    buffer and of the two flags. *)
Definition requestHistoricalData (self : IBKRAutoFibClient) (connected : bool)
  : bool * IBKRAutoFibClient :=
  if negb connected then (false, self)
  else (true,
        {| historical_data := []; data_ready := false;
           data_end_received := false;
           next_order_id := next_order_id self;
           indicator := indicator self |}).

(** [getHistoricalData].  [during_wait] are the callbacks that other threads
    dispatch while the caller is blocked in [wait_for], up to the moment the
    wait returns: [wait_for] returns the value of its predicate at that
    moment, true as soon as [data_end_received] is set and false when the 30
    seconds have passed without it. *)
Definition getHistoricalData (self : IBKRAutoFibClient)
    (during_wait : list Callback) : list Bar * IBKRAutoFibClient :=
  let self' := processMsgs self during_wait in
  if negb (data_end_received self') then ([], self')
  else (historical_data self', self').

(** The polling loop of [runIndicator]: one batch of callbacks per iteration,
    until the end of the data has been received; the list of batches ends
    when the 30 seconds have passed. *)
Fixpoint poll (self : IBKRAutoFibClient) (batches : list (list Callback))
  : IBKRAutoFibClient :=
  match batches with
  | [] => self
  | batch :: rest =>
      if data_end_received self then self
      else poll (processMsgs self batch) rest
  end.

Definition with_indicator (self : IBKRAutoFibClient) (ind : AutoFibIndicator)
  : IBKRAutoFibClient :=
  {| historical_data := historical_data self;
     data_ready := data_ready self;
     data_end_received := data_end_received self;
     next_order_id := next_order_id self;
     indicator := ind |}.

(** [runIndicator].  The callbacks are dispatched by the calling thread in the
    polling loop, so none arrives during the wait of [getHistoricalData]. *)
Definition runIndicator (self : IBKRAutoFibClient) (connected : bool)
    (batches : list (list Callback)) (now : string)
  : option (FibonacciResults * IBKRAutoFibClient) :=
  let '(requested, self1) := requestHistoricalData self connected in
  if negb requested
  then Some (error_results "Failed to request historical data", self1)
  else
    let self2 := poll self1 batches in
    let '(bars, self3) := getHistoricalData self2 [] in
    match bars with
    | [] => Some (error_results "No data received", self3)
    | _ =>
        '(r, ind) ← calculate (indicator self3) now bars;
        Some (r, with_indicator self3 ind)
    end.

(** ** Vocabulary of the statements *)

(** Both loops are the same scan, for a key and a strict comparison. *)
Fixpoint scan (key : Bar -> Qc) (better : Qc -> Qc -> bool) (bars : list Bar)
    (n : nat) (i idx : Z) (v : Qc) : option Z :=
  match n with
  | O => Some idx
  | S n' =>
      b ← bar_at bars i;
      if better (key b) v
      then scan key better bars n' (i + 1) i (key b)
      else scan key better bars n' (i + 1) idx v
  end.

(** What a scan knows when its loop variable is [i]: the candidate [idx]
    holds the value [v], no bar of [start, i) beats it in the order [R], and
    it beats every bar of [start, idx). *)
Definition scan_inv (key : Bar -> Qc) (R : Qc -> Qc -> Prop) (bars : list Bar)
    (start i idx : Z) (v : Qc) : Prop :=
  start <= idx /\ (idx < i \/ idx = start) /\
  (exists b, bar_at bars idx = Some b /\ key b = v) /\
  (forall j b, start <= j < i -> bar_at bars j = Some b -> ~ R (key b) v) /\
  (forall j b, start <= j < idx -> bar_at bars j = Some b -> R v (key b)).

(** [i] is the first index of the window [start, start + count) whose bar has
    the least [low] of the window. *)
Definition first_lowest (bars : list Bar) (start count i : Z) : Prop :=
  start <= i < start + count /\
  exists bi, bar_at bars i = Some bi /\
    (forall j b, start <= j < start + count -> bar_at bars j = Some b ->
                 (low bi ≤ low b)%Qc) /\
    (forall j b, start <= j < i -> bar_at bars j = Some b ->
                 (low bi < low b)%Qc).

(** [i] is the first index of the window whose bar has the greatest [high]. *)
Definition first_highest (bars : list Bar) (start count i : Z) : Prop :=
  start <= i < start + count /\
  exists bi, bar_at bars i = Some bi /\
    (forall j b, start <= j < start + count -> bar_at bars j = Some b ->
                 (high b ≤ high bi)%Qc) /\
    (forall j b, start <= j < i -> bar_at bars j = Some b ->
                 (high b < high bi)%Qc).

(** The value that [m[k]] reads. *)
Definition read_ratio (m : gmap string Qc) (k : string) : Qc :=
  default (dbl 0) (m !! k).

(** The price of a ratio, by trend. *)
Definition level_price (bullish : bool) (high_val low_val ratio : Qc) : Qc :=
  if bullish then (low_val + (high_val - low_val) * ratio)%Qc
  else (high_val - (high_val - low_val) * ratio)%Qc.

(** What [calculate] has found and stored when it returns [r] without an
    error: the two extremes [hi], [li] with their bars, the last bar of the
    window, the three price checks passed, and each field of [r]. *)
Record calc_success (self : AutoFibIndicator) (now : string) (bars : list Bar)
    (r : FibonacciResults) (hi li : Z) (hb lb back : Bar) : Prop := {
  cs_highest : findHighestBar bars (start_bar self) (bars_back self) = Some hi;
  cs_lowest : findLowestBar bars (start_bar self) (bars_back self) = Some li;
  cs_hi_pos : 0 <= hi;
  cs_li_pos : 0 <= li;
  cs_hb : bar_at bars hi = Some hb;
  cs_lb : bar_at bars li = Some lb;
  cs_back : last bars = Some back;
  cs_high_pos : (dbl 0 < high hb)%Qc;
  cs_low_pos : (dbl 0 < low lb)%Qc;
  cs_low_high : (low lb < high hb)%Qc;
  cs_timestamp : timestamp r = now;
  cs_trend :
    trend r = if string_gt (time hb) (time lb) then "BULLISH" else "BEARISH";
  cs_high_value : high_value r = high hb;
  cs_low_value : low_value r = low lb;
  cs_high_time : high_time r = time hb;
  cs_low_time : low_time r = time lb;
  cs_high_index : high_bar_index r = hi;
  cs_low_index : low_bar_index r = li;
  cs_range : fibo_range r = (high hb - low lb)%Qc;
  cs_levels :
    fibo_levels r =
    level_price (string_gt (time hb) (time lb)) (high hb) (low lb)
      <$> fibo_level_values self;
  cs_zone_low :
    golden_zone_low r =
    level_price (string_gt (time hb) (time lb)) (high hb) (low lb)
      (read_ratio (fibo_level_values self)
         (if string_gt (time hb) (time lb) then "level_2" else "level_4"));
  cs_zone_high :
    golden_zone_high r =
    level_price (string_gt (time hb) (time lb)) (high hb) (low lb)
      (read_ratio (fibo_level_values self)
         (if string_gt (time hb) (time lb) then "level_4" else "level_2"));
  cs_price : current_price r = close back;
  cs_in_zone :
    price_in_golden_zone r =
    dle (golden_zone_low r) (current_price r)
    && dle (current_price r) (golden_zone_high r)
}.

(** The configuration of an indicator: what the constructor and
    [setFibonacciLevels] install. *)
Definition same_config (a b : AutoFibIndicator) : Prop :=
  bars_back a = bars_back b /\ start_bar a = start_bar b /\
  fibo_level_values a = fibo_level_values b.

(** The record with its [timestamp] replaced. *)
Definition with_timestamp (t : string) (r : FibonacciResults) : FibonacciResults :=
  {| timestamp := t; trend := trend r;
     high_value := high_value r; low_value := low_value r;
     high_time := high_time r; low_time := low_time r;
     high_bar_index := high_bar_index r; low_bar_index := low_bar_index r;
     fibo_range := fibo_range r; fibo_levels := fibo_levels r;
     golden_zone_low := golden_zone_low r;
     golden_zone_high := golden_zone_high r;
     current_price := current_price r;
     price_in_golden_zone := price_in_golden_zone r;
     error := error r |}.

(** ** Sample data *)

Module Samples.

Definition bar (t : string) (h l c : Q) : Bar :=
  {| time := t; open := dbl l; high := dbl h; low := dbl l;
     close := dbl c; volume := dbl 100 |}.

(** Scenario A of the specification: lows 10 8 9 11 12, highs 15 14 16 13 17. *)
Definition scenario_a : list Bar :=
  [ bar "20251006 09:30:00" 15 10 12;
    bar "20251006 09:35:00" 14 8 11;
    bar "20251006 09:40:00" 16 9 13;
    bar "20251006 09:45:00" 13 11 12;
    bar "20251006 09:50:00" 17 12 13 ].

End Samples.

(** The result and the object left by a call that is defined. *)
Definition outcome (o : option (FibonacciResults * AutoFibIndicator))
  : FibonacciResults * AutoFibIndicator :=
  default (FibonacciResults_new, AutoFibIndicator_new 20 0) o.

Module Runs.

Definition stamp : string := "2025-10-06T10:00:00".
Definition stamp' : string := "2025-10-06T10:00:01".

(** Scenario A on an indicator with [barsBack = 5], [startBar = 0]. *)
Definition ind_a : AutoFibIndicator := AutoFibIndicator_new 5 0.
Definition run_a := calculate ind_a stamp Samples.scenario_a.
Definition res_a : FibonacciResults := (outcome run_a).1.
Definition ind_a' : AutoFibIndicator := (outcome run_a).2.

(** The same window with the times reversed: the high comes first. *)
Definition bearish_bars : list Bar :=
  [ Samples.bar "20251006 09:30:00" 17 12 13;
    Samples.bar "20251006 09:35:00" 13 11 12;
    Samples.bar "20251006 09:40:00" 16 9 13;
    Samples.bar "20251006 09:45:00" 14 8 11;
    Samples.bar "20251006 09:50:00" 15 10 12 ].
Definition run_b := calculate ind_a stamp bearish_bars.
Definition res_b : FibonacciResults := (outcome run_b).1.
Definition ind_b' : AutoFibIndicator := (outcome run_b).2.

(** An indicator whose two golden-zone ratios have been installed the other
    way round. *)
Definition swapped_levels : gmap string Qc :=
  <["level_4" := dbl 0.382]> (<["level_2" := dbl 0.618]> ∅).
Definition ind_swapped : AutoFibIndicator :=
  setFibonacciLevels (AutoFibIndicator_new 2 0) swapped_levels.
(** low 8 at index 0, high 18 at index 1, last close 14.18 = 8 + 10 * 0.618. *)
Definition swapped_bars : list Bar :=
  [ Samples.bar "20251006 09:30:00" 10 8 9;
    Samples.bar "20251006 09:35:00" 18 9 14.18 ].
Definition run_swapped := calculate ind_swapped stamp swapped_bars.
Definition res_swapped : FibonacciResults := (outcome run_swapped).1.
Definition ind_swapped' : AutoFibIndicator := (outcome run_swapped).2.

(** An indicator with an empty level map. *)
Definition ind_empty : AutoFibIndicator :=
  setFibonacciLevels (AutoFibIndicator_new 2 0) ∅.

End Runs.

(** A window whose last close sits exactly on the lower bound of the zone of
    the default ratios: low 8, high 18, close 11.82 = 8 + 10 * 0.382. *)
Definition boundary_bars : list Bar :=
  [ Samples.bar "20251006 09:30:00" 10 8 9;
    Samples.bar "20251006 09:35:00" 18 9 11.82 ].

(** Two requests of the acquisition. *)
Module Acquisition.

Definition bar1 : Bar := Samples.bar "20251006 09:30:00" 15 10 12.

(** A fresh request during which one bar arrives and the end of the data
    does not: the wait of [getHistoricalData] runs into its timeout. *)
Definition timed_out : IBKRAutoFibClient :=
  processMsgs (requestHistoricalData IBKRAutoFibClient_new true).2
              [CbHistoricalData 1 bar1].

(** A fresh request that ends at once, without a bar. *)
Definition ended_empty : IBKRAutoFibClient :=
  processMsgs (requestHistoricalData IBKRAutoFibClient_new true).2
              [CbHistoricalDataEnd 1 "" ""].

End Acquisition.

(** ** Vocabulary of the further properties *)

(** The window of the indicator lies inside the bars, and the number of bars
    fits an [int]. *)
Definition valid_window (self : AutoFibIndicator) (bars : list Bar) : Prop :=
  0 <= start_bar self /\ 1 <= bars_back self /\
  start_bar self + bars_back self <= Z.of_nat (length bars) /\
  Z.of_nat (length bars) <= CInt.INT_MAX.

(** [j] is an index of the window. *)
Definition in_window (self : AutoFibIndicator) (j : Z) : Prop :=
  start_bar self <= j < start_bar self + bars_back self.

(** The bars that a sequence of callbacks delivers, in order. *)
Definition bars_of (cbs : list Callback) : list Bar :=
  omap (λ cb, match cb with
              | CbHistoricalData _ bar => Some bar
              | _ => None
              end) cbs.

(** Whether a sequence of callbacks brings the end of the data. *)
Definition has_end (cbs : list Callback) : bool :=
  existsb (λ cb, match cb with
                 | CbHistoricalDataEnd _ _ _ => true
                 | _ => false
                 end) cbs.

(** The callbacks that the polling loop dispatches: the batches up to the
    first one that brings the end of the data, that one included. *)
Fixpoint dispatched (batches : list (list Callback)) : list Callback :=
  match batches with
  | [] => []
  | batch :: rest =>
      if has_end batch then batch else batch ++ dispatched rest
  end.

(** The signal that [main] works out of an error-free result, for its own
    report and JSON file (main.cpp, "Determine signal"). *)
Definition main_signal (r : FibonacciResults) : string :=
  if price_in_golden_zone r then
    if String.eqb (trend r) "BULLISH" then "BUY" else "SELL"
  else "HOLD".

(** ** The report *)

(** The order of [std::pair<double,double>], under which [std::sort] arranges
    the rows of the report: by the first component, then by the second. *)
Definition row_le (x y : Qc * Qc) : Prop :=
  (x.1 < y.1)%Qc \/ (x.1 = y.1 /\ (x.2 ≤ y.2)%Qc).

#[global] Instance row_le_dec : RelDecision row_le.
Proof. intros x y. unfold row_le. apply _. Defined.

(** The vector [levels_sorted] of [printReport]: one row (percentage, price)
    per entry of [results.fibo_levels], the percentage read with
    [fibo_level_values.at(name) * 100.0], then sorted.  [at] throws
    [std::out_of_range] on a missing key: [None].  (The rows are collected
    in the order of the map's enumeration; the sort makes the result
    independent of it.) *)
Definition levels_sorted (self : AutoFibIndicator) : option (list (Qc * Qc)) :=
  rows ← mapM (λ level : string * Qc,
                 ratio ← fibo_level_values self !! level.1;
                 Some ((ratio * dbl 100)%Qc, level.2))
              (map_to_list (fibo_levels (results self)));
  Some (merge_sort row_le rows).

(** What [printReport] writes, as data: the error alone, or the fields of the
    stored result, the sorted rows of the levels and the signal.  The layout
    and the formatting of the numbers are not modelled. *)
Inductive Report : Type :=
  | ReportError (e : string)
  | ReportBody (r : FibonacciResults) (rows : list (Qc * Qc)) (signal : string).

Definition printReport (self : AutoFibIndicator) : option Report :=
  if negb (String.eqb (error (results self)) "")
  then Some (ReportError (error (results self)))
  else
    rows ← levels_sorted self;
    Some (ReportBody (results self) rows (getSignal self)).

(** ** The decimal stub *)

(** [DecimalStub.cpp].  [Decimal] is a typedef of the broker API (its header
    is not among the sources); the stub computes on it with the built-in
    integer operators and treats it as [unsigned long long].  The width of
    that unsigned type is the parameter [width]; a value is an integer from
    0 to [2 ^ width - 1]. *)
Module DecimalFunctions.

Section Width.

Variable width : Z.

Definition modulus : Z := 2 ^ width.

Definition is_decimal (d : Z) : Prop := 0 <= d < modulus.

Definition add (decimal1 decimal2 : Z) : Z := (decimal1 + decimal2) mod modulus.

Definition sub (decimal1 decimal2 : Z) : Z := (decimal1 - decimal2) mod modulus.

Definition mul (decimal1 decimal2 : Z) : Z := (decimal1 * decimal2) mod modulus.

Definition div (decimal1 decimal2 : Z) : Z :=
  if decimal2 =? 0 then 0 else decimal1 / decimal2.

End Width.

End DecimalFunctions.

(** ** The engine in binary64 *)

(** The exact rationals above keep the control flow and the comparisons of
    the engine; they do not round.  [Binary64] is the same engine, function
    by function, with [double] as the IEEE binary64 numbers of the kernel
    ([float]): what the compiled code computes, bit for bit.  It is used to
    run the code where rounding decides. *)
Module Binary64.

Record Bar : Type := mkBar {
  time : string;
  open : float;
  high : float;
  low : float;
  close : float;
  volume : float
}.

Record FibonacciResults : Type := mkFibonacciResults {
  timestamp : string;
  trend : string;
  high_value : float;
  low_value : float;
  high_time : string;
  low_time : string;
  high_bar_index : Z;
  low_bar_index : Z;
  fibo_range : float;
  fibo_levels : gmap string float;
  golden_zone_low : float;
  golden_zone_high : float;
  current_price : float;
  price_in_golden_zone : bool;
  error : string
}.

Definition error_results (e : string) : FibonacciResults :=
  {| timestamp := ""; trend := "";
     high_value := 0; low_value := 0;
     high_time := ""; low_time := "";
     high_bar_index := 0; low_bar_index := 0;
     fibo_range := 0; fibo_levels := ∅;
     golden_zone_low := 0; golden_zone_high := 0;
     current_price := 0; price_in_golden_zone := false;
     error := e |}.

Record AutoFibIndicator : Type := mkAutoFibIndicator {
  bars_back : Z;
  start_bar : Z;
  fibo_level_values : gmap string float;
  last_lowest_bar : Z;
  last_highest_bar : Z;
  last_high_value : float;
  last_low_value : float;
  last_is_bullish : bool;
  results : FibonacciResults
}.

Definition default_levels : gmap string float :=
  <["level_9" := 2.618%float]> (<["level_8" := 1.618%float]> (
  <["level_7" := 1.000%float]> (<["level_6" := 0.886%float]> (
  <["level_5" := 0.764%float]> (<["level_4" := 0.618%float]> (
  <["level_3" := 0.500%float]> (<["level_2" := 0.382%float]> (
  <["level_1" := 0.236%float]> (<["level_0" := 0.000%float]> ∅))))))))).

Definition AutoFibIndicator_new (barsBack startBar : Z) : AutoFibIndicator :=
  {| bars_back := barsBack; start_bar := startBar;
     fibo_level_values := default_levels;
     last_lowest_bar := -1; last_highest_bar := -1;
     last_high_value := 0; last_low_value := 0;
     last_is_bullish := true;
     results := error_results "" |}.

Definition map_index (m : gmap string float) (k : string)
  : float * gmap string float :=
  match m !! k with
  | Some v => (v, m)
  | None => (0%float, <[k := 0%float]> m)
  end.

Definition bar_at (bars : list Bar) (i : Z) : option Bar :=
  if i <? 0 then None else bars !! Z.to_nat i.

Fixpoint lowest_scan (bars : list Bar) (n : nat) (i lowest_idx : Z)
    (lowest_value : float) : option Z :=
  match n with
  | O => Some lowest_idx
  | S n' =>
      b ← bar_at bars i;
      if (low b <? lowest_value)%float
      then lowest_scan bars n' (i + 1) i (low b)
      else lowest_scan bars n' (i + 1) lowest_idx lowest_value
  end.

Definition findLowestBar (bars : list Bar) (start count : Z) : option Z :=
  if (start <? 0) || (count <=? 0)
     || (CInt.of_size (length bars) <? CInt.add start count)
  then Some (-1)
  else
    first ← bar_at bars start;
    lowest_scan bars (Z.to_nat (CInt.add start count - start))
                start start (low first).

Fixpoint highest_scan (bars : list Bar) (n : nat) (i highest_idx : Z)
    (highest_value : float) : option Z :=
  match n with
  | O => Some highest_idx
  | S n' =>
      b ← bar_at bars i;
      if (highest_value <? high b)%float
      then highest_scan bars n' (i + 1) i (high b)
      else highest_scan bars n' (i + 1) highest_idx highest_value
  end.

Definition findHighestBar (bars : list Bar) (start count : Z) : option Z :=
  if (start <? 0) || (count <=? 0)
     || (CInt.of_size (length bars) <? CInt.add start count)
  then Some (-1)
  else
    first ← bar_at bars start;
    highest_scan bars (Z.to_nat (CInt.add start count - start))
                 start start (high first).

Definition store_results (self : AutoFibIndicator) (r : FibonacciResults)
  : AutoFibIndicator :=
  {| bars_back := bars_back self; start_bar := start_bar self;
     fibo_level_values := fibo_level_values self;
     last_lowest_bar := last_lowest_bar self;
     last_highest_bar := last_highest_bar self;
     last_high_value := last_high_value self;
     last_low_value := last_low_value self;
     last_is_bullish := last_is_bullish self;
     results := r |}.

Definition calculate (self : AutoFibIndicator) (now : string) (bars : list Bar)
  : option (FibonacciResults * AutoFibIndicator) :=
  if CInt.of_size (length bars) <? CInt.add (bars_back self) (start_bar self)
  then
    let r := error_results "Not enough bars" in
    Some (r, store_results self r)
  else
    lowest_idx ← findLowestBar bars (start_bar self) (bars_back self);
    highest_idx ← findHighestBar bars (start_bar self) (bars_back self);
    if (lowest_idx <? 0) || (highest_idx <? 0)
    then
      let r := error_results "Could not find highest/lowest bar" in
      Some (r, store_results self r)
    else
      hb ← bar_at bars highest_idx;
      lb ← bar_at bars lowest_idx;
      let high_val := high hb in
      let low_val := low lb in
      if (high_val <=? 0)%float || (low_val <=? 0)%float
         || (high_val <=? low_val)%float
      then
        let r := error_results "Invalid price data" in
        Some (r, store_results self r)
      else
        let is_bullish := string_gt (time hb) (time lb) in
        let range := (high_val - low_val)%float in
        let fibo_prices :=
          if is_bullish
          then (λ ratio, low_val + range * ratio)%float
                 <$> fibo_level_values self
          else (λ ratio, high_val - range * ratio)%float
                 <$> fibo_level_values self in
        let '(zone_low, zone_high, levels) :=
          if is_bullish
          then
            let '(ratio_2, levels_2) := map_index (fibo_level_values self) "level_2" in
            let '(ratio_4, levels_4) := map_index levels_2 "level_4" in
            ((low_val + range * ratio_2)%float,
             (low_val + range * ratio_4)%float, levels_4)
          else
            let '(ratio_4, levels_4) := map_index (fibo_level_values self) "level_4" in
            let '(ratio_2, levels_2) := map_index levels_4 "level_2" in
            ((high_val - range * ratio_4)%float,
             (high_val - range * ratio_2)%float, levels_2) in
        back ← last bars;
        let price := close back in
        let r :=
          {| timestamp := now;
             trend := if is_bullish then "BULLISH" else "BEARISH";
             high_value := high_val; low_value := low_val;
             high_time := time hb; low_time := time lb;
             high_bar_index := highest_idx; low_bar_index := lowest_idx;
             fibo_range := range; fibo_levels := fibo_prices;
             golden_zone_low := zone_low; golden_zone_high := zone_high;
             current_price := price;
             price_in_golden_zone :=
               (zone_low <=? price)%float && (price <=? zone_high)%float;
             error := "" |} in
        Some (r,
              {| bars_back := bars_back self; start_bar := start_bar self;
                 fibo_level_values := levels;
                 last_lowest_bar := lowest_idx;
                 last_highest_bar := highest_idx;
                 last_high_value := high_val;
                 last_low_value := low_val;
                 last_is_bullish := is_bullish;
                 results := r |}).

(** A swing of two bars, five minutes apart: the low on the first bar, the
    high on the second, so that the trend is bullish; and the same swing
    with the high first, bearish. *)
Definition rising (low_val mid high_val last_close : float) : list Bar :=
  [ {| time := "20251006 09:30:00"; open := mid; high := mid;
       low := low_val; close := mid; volume := 100 |};
    {| time := "20251006 09:35:00"; open := mid; high := high_val;
       low := mid; close := last_close; volume := 100 |} ].

Definition falling (low_val mid high_val last_close : float) : list Bar :=
  [ {| time := "20251006 09:30:00"; open := mid; high := high_val;
       low := mid; close := mid; volume := 100 |};
    {| time := "20251006 09:35:00"; open := mid; high := mid;
       low := low_val; close := last_close; volume := 100 |} ].

(** The result and the object left by a call on such a swing, with the
    window of its two bars and the default ratios. *)
Definition run (bars : list Bar) : FibonacciResults * AutoFibIndicator :=
  default (error_results "", AutoFibIndicator_new 2 0)
    (calculate (AutoFibIndicator_new 2 0) Runs.stamp bars).

End Binary64.

(** * Theorems *)

Lemma CInt_wrap_small z :
  CInt.INT_MIN <= z <= CInt.INT_MAX -> CInt.wrap z = z.
Proof.
  unfold CInt.wrap, CInt.INT_MIN, CInt.INT_MAX. intros Hz.
  rewrite Z.mod_small; lia.
Qed.

(** ** Basic facts *)

Lemma dlt_true x y : dlt x y = true ↔ (x < y)%Qc.
Proof. unfold dlt. apply bool_decide_eq_true. Qed.

Lemma dlt_false x y : dlt x y = false ↔ (y ≤ x)%Qc.
Proof. unfold dlt. rewrite bool_decide_eq_false. symmetry. apply Qcle_ngt. Qed.

Lemma dle_true x y : dle x y = true ↔ (x ≤ y)%Qc.
Proof. unfold dle. apply bool_decide_eq_true. Qed.

Lemma dle_false x y : dle x y = false ↔ (y < x)%Qc.
Proof. unfold dle. rewrite bool_decide_eq_false. symmetry. apply Qclt_nge. Qed.

Lemma bar_at_lookup bars i :
  0 <= i -> bar_at bars i = bars !! Z.to_nat i.
Proof.
  intros Hi. unfold bar_at.
  destruct (Z.ltb_spec i 0); [lia | reflexivity].
Qed.

Lemma bar_at_in_range bars i :
  0 <= i < Z.of_nat (length bars) -> is_Some (bar_at bars i).
Proof.
  intros [Hi Hlt]. rewrite bar_at_lookup by assumption.
  apply lookup_lt_is_Some. lia.
Qed.

(** ** The two scans *)

Lemma lowest_scan_scan bars n i idx v :
  lowest_scan bars n i idx v = scan low dlt bars n i idx v.
Proof.
  revert i idx v. induction n as [|n IH]; intros i idx v; simpl; [reflexivity|].
  destruct (bar_at bars i) as [b|]; simpl; [|reflexivity].
  destruct (dlt (low b) v); apply IH.
Qed.

Lemma highest_scan_scan bars n i idx v :
  highest_scan bars n i idx v = scan high (flip dlt) bars n i idx v.
Proof.
  revert i idx v. induction n as [|n IH]; intros i idx v; simpl; [reflexivity|].
  destruct (bar_at bars i) as [b|]; simpl; [|reflexivity].
  unfold flip at 1. destruct (dlt v (high b)); apply IH.
Qed.

Section Scan.

Variable key : Bar -> Qc.
Variable R : Qc -> Qc -> Prop.
Variable better : Qc -> Qc -> bool.

Hypothesis better_spec : forall x y, better x y = true <-> R x y.
Hypothesis R_irrefl : forall x, ~ R x x.
Hypothesis R_trans : forall x y z, R x y -> R y z -> R x z.
Hypothesis R_cotrans : forall x y z, R x y -> R x z \/ R z y.

Variable bars : list Bar.
Variable start : Z.

Local Abbreviation inv := (scan_inv key R bars start).

(** One iteration of the loop keeps the invariant. *)
Lemma scan_inv_step i idx v b :
  start <= i -> bar_at bars i = Some b -> inv i idx v ->
  if better (key b) v then inv (i + 1) i (key b)
  else inv (i + 1) idx v.
Proof.
  intros Hi Hb (Hidx & Hpos & Hval & Hmin & Hfirst).
  destruct (better (key b) v) eqn:Hcmp.
  - apply better_spec in Hcmp.
    split; [lia|]. split; [lia|]. split; [eauto|]. split.
    + intros j b' Hj Hb' Hbeat.
      destruct (Z.eq_dec j i) as [->|Hne].
      * rewrite Hb in Hb'. injection Hb' as <-. by eapply R_irrefl.
      * apply (Hmin j b'); [lia | done | by eapply R_trans].
    + intros j b' Hj Hb'.
      destruct (R_cotrans _ _ (key b') Hcmp) as [Hlt|Hlt]; [done|].
      exfalso. apply (Hmin j b'); [lia | done | done].
  - assert (Hn : ~ R (key b) v).
    { intros HR. apply better_spec in HR. congruence. }
    split; [lia|]. split; [lia|]. split; [done|]. split; [|done].
    intros j b' Hj Hb'.
    destruct (Z.eq_dec j i) as [->|Hne].
    + rewrite Hb in Hb'. by injection Hb' as <-.
    + apply (Hmin j b'); [lia | done].
Qed.

(** The loop returns, and with the invariant at the end of the window. *)
Lemma scan_correct n i idx v :
  0 <= start <= i -> i + Z.of_nat n <= Z.of_nat (length bars) ->
  inv i idx v ->
  exists idx' v', scan key better bars n i idx v = Some idx' /\
                  inv (i + Z.of_nat n) idx' v'.
Proof.
  revert i idx v. induction n as [|n IH]; intros i idx v Hi Hlen Hinv.
  - exists idx, v. simpl. rewrite Z.add_0_r. done.
  - destruct (bar_at_in_range bars i) as [b Hb]; [lia|].
    pose proof (scan_inv_step i idx v b (proj2 Hi) Hb Hinv) as Hstep.
    simpl. rewrite Hb. simpl.
    replace (i + Z.of_nat (S n)) with ((i + 1) + Z.of_nat n) by lia.
    destruct (better (key b) v); apply IH; (lia || done).
Qed.

Lemma scan_inv_init b :
  bar_at bars start = Some b -> inv start start (key b).
Proof.
  intros Hb. split; [lia|]. split; [by right|]. split; [eauto|].
  split; intros j b' Hj; lia.
Qed.

End Scan.

Lemma Qclt_cotrans (x y z : Qc) : (x < y)%Qc -> (x < z)%Qc \/ (z < y)%Qc.
Proof.
  intros Hxy. destruct (Qclt_le_dec x z) as [Hlt|Hle]; [by left|right].
  by eapply Qcle_lt_trans.
Qed.

Lemma Qclt_irrefl (x : Qc) : ~ (x < x)%Qc.
Proof. intros H. by apply (Qclt_not_eq x x). Qed.

(** The guard of the two functions lets a valid window through. *)
Lemma window_guard (bars : list Bar) start count :
  0 <= start -> 1 <= count ->
  start + count <= Z.of_nat (length bars) ->
  Z.of_nat (length bars) <= CInt.INT_MAX ->
  CInt.of_size (length bars) = Z.of_nat (length bars) /\
  CInt.add start count = start + count /\
  (start <? 0) || (count <=? 0)
    || (CInt.of_size (length bars) <? CInt.add start count) = false.
Proof.
  intros Hs Hc Hlen Hmax.
  assert (Hsz : CInt.of_size (length bars) = Z.of_nat (length bars)).
  { apply CInt_wrap_small. unfold CInt.INT_MIN, CInt.INT_MAX in *. lia. }
  assert (Hadd : CInt.add start count = start + count).
  { apply CInt_wrap_small. unfold CInt.INT_MIN, CInt.INT_MAX in *. lia. }
  rewrite Hsz, Hadd. repeat split.
  destruct (Z.ltb_spec start 0); [lia|].
  destruct (Z.leb_spec count 0); [lia|].
  destruct (Z.ltb_spec (Z.of_nat (length bars)) (start + count)); [lia|].
  reflexivity.
Qed.

Lemma findLowestBar_first (bars : list Bar) start count :
  0 <= start -> 1 <= count ->
  start + count <= Z.of_nat (length bars) ->
  Z.of_nat (length bars) <= CInt.INT_MAX ->
  exists i, findLowestBar bars start count = Some i /\
            first_lowest bars start count i.
Proof.
  intros Hs Hc Hlen Hmax.
  destruct (window_guard bars start count Hs Hc Hlen Hmax) as (_ & Hadd & Hg).
  unfold findLowestBar. rewrite Hg, Hadd.
  destruct (bar_at_in_range bars start) as [b0 Hb0]; [lia|].
  rewrite Hb0. simpl. rewrite lowest_scan_scan.
  replace (start + count - start) with count by lia.
  destruct (scan_correct low Qclt dlt dlt_true Qclt_irrefl Qclt_trans
              Qclt_cotrans bars start (Z.to_nat count) start start (low b0))
    as (i & v & Hrun & Hi & Hpos & (bi & Hbi & Hv) & Hmin & Hfirst).
  { lia. } { lia. } { by apply scan_inv_init. }
  rewrite Z2Nat.id in Hmin, Hpos by lia.
  exists i. split; [done|]. split; [lia|].
  exists bi. split; [done|]. rewrite Hv. split.
  - intros j b Hj Hb. apply Qcle_ngt. by eapply Hmin.
  - done.
Qed.

Lemma findHighestBar_first (bars : list Bar) start count :
  0 <= start -> 1 <= count ->
  start + count <= Z.of_nat (length bars) ->
  Z.of_nat (length bars) <= CInt.INT_MAX ->
  exists i, findHighestBar bars start count = Some i /\
            first_highest bars start count i.
Proof.
  intros Hs Hc Hlen Hmax.
  destruct (window_guard bars start count Hs Hc Hlen Hmax) as (_ & Hadd & Hg).
  unfold findHighestBar. rewrite Hg, Hadd.
  destruct (bar_at_in_range bars start) as [b0 Hb0]; [lia|].
  rewrite Hb0. simpl. rewrite highest_scan_scan.
  replace (start + count - start) with count by lia.
  destruct (scan_correct high (flip Qclt) (flip dlt)) with
    (bars := bars) (start := start) (n := Z.to_nat count) (i := start)
    (idx := start) (v := high b0)
    as (i & v & Hrun & Hi & Hpos & (bi & Hbi & Hv) & Hmax' & Hfirst).
  { intros x y. unfold flip. apply dlt_true. }
  { intros x. unfold flip. apply Qclt_irrefl. }
  { intros x y z Hxy Hyz. unfold flip in *. by eapply Qclt_trans. }
  { intros x y z Hxy. unfold flip in *.
    destruct (Qclt_cotrans _ _ z Hxy); auto. }
  { lia. } { lia. } { by apply scan_inv_init. }
  rewrite Z2Nat.id in Hmax', Hpos by lia.
  exists i. split; [done|]. split; [lia|].
  exists bi. split; [done|]. rewrite Hv. split.
  - intros j b Hj Hb. apply Qcle_ngt. unfold flip in Hmax'. by eapply Hmax'.
  - done.
Qed.

(** ** What an error-free call of [calculate] has computed *)

Lemma map_index_read m k : (map_index m k).1 = read_ratio m k.
Proof. unfold map_index, read_ratio. by destruct (m !! k). Qed.

Lemma read_ratio_map_index m k k' :
  k ≠ k' -> read_ratio (map_index m k).2 k' = read_ratio m k'.
Proof.
  intros Hne. unfold read_ratio, map_index.
  destruct (m !! k) eqn:Hk; simpl; [reflexivity|].
  by rewrite lookup_insert_ne.
Qed.

Lemma calculate_inv self now bars r self' :
  calculate self now bars = Some (r, self') -> error r = "" ->
  exists hi li hb lb back, calc_success self now bars r hi li hb lb back.
Proof.
  intros Hcalc Herr. unfold calculate in Hcalc.
  destruct (CInt.of_size (length bars) <? _).
  { injection Hcalc as <- <-. discriminate. }
  destruct (findLowestBar _ _ _) as [li|] eqn:Hli; [|discriminate].
  destruct (findHighestBar _ _ _) as [hi|] eqn:Hhi; [|discriminate].
  cbn [mbind option_bind] in Hcalc.
  destruct ((li <? 0) || (hi <? 0)) eqn:Hneg.
  { injection Hcalc as <- <-. discriminate. }
  apply orb_false_elim in Hneg as [Hlneg Hhneg].
  apply Z.ltb_ge in Hlneg, Hhneg.
  destruct (bar_at bars hi) as [hb|] eqn:Hhb; [|discriminate].
  destruct (bar_at bars li) as [lb|] eqn:Hlb; [|discriminate].
  cbn [mbind option_bind] in Hcalc.
  destruct (dle (high hb) (dbl 0) || dle (low lb) (dbl 0)
            || dle (high hb) (low lb)) eqn:Hprice.
  { injection Hcalc as <- <-. discriminate. }
  apply orb_false_elim in Hprice as [Hprice Hhl].
  apply orb_false_elim in Hprice as [Hh0 Hl0].
  apply dle_false in Hh0, Hl0, Hhl.
  destruct (last bars) as [back|] eqn:Hback.
  2:{ destruct (string_gt (time hb) (time lb));
      repeat (destruct (map_index _ _)); discriminate. }
  exists hi, li, hb, lb, back.
  destruct (string_gt (time hb) (time lb)) eqn:Hbull.
  - pose proof (map_index_read (fibo_level_values self) "level_2") as Hr2.
    pose proof (read_ratio_map_index (fibo_level_values self)
                  "level_2" "level_4" ltac:(done)) as Hr4.
    rewrite <- map_index_read in Hr4.
    destruct (map_index (fibo_level_values self) "level_2")
      as [r2 m2] eqn:E2.
    destruct (map_index m2 "level_4") as [r4 m4] eqn:E4.
    cbn [mbind option_bind] in Hcalc. injection Hcalc as <- <-.
    simpl in Hr2, Hr4. rewrite E4 in Hr4. simpl in Hr4.
    split; rewrite ?Hbull; try done;
      cbn [golden_zone_low golden_zone_high level_price]; congruence.
  - pose proof (map_index_read (fibo_level_values self) "level_4") as Hr4.
    pose proof (read_ratio_map_index (fibo_level_values self)
                  "level_4" "level_2" ltac:(done)) as Hr2.
    rewrite <- map_index_read in Hr2.
    destruct (map_index (fibo_level_values self) "level_4")
      as [r4 m4] eqn:E4.
    destruct (map_index m4 "level_2") as [r2 m2] eqn:E2.
    cbn [mbind option_bind] in Hcalc. injection Hcalc as <- <-.
    simpl in Hr2, Hr4. rewrite E2 in Hr2. simpl in Hr2.
    split; rewrite ?Hbull; try done;
      cbn [golden_zone_low golden_zone_high level_price]; congruence.
Qed.

(** ** Claims about the scan of the window *)

Lemma calculate_defined self now (bars : list Bar) :
  0 <= start_bar self -> 1 <= bars_back self ->
  start_bar self + bars_back self <= Z.of_nat (length bars) ->
  Z.of_nat (length bars) <= CInt.INT_MAX ->
  exists r self', calculate self now bars = Some (r, self') /\
                  error r ≠ "Could not find highest/lowest bar" /\
                  error r ≠ "Not enough bars".
Proof.
  intros Hs Hc Hlen Hmax.
  destruct (findLowestBar_first bars _ _ Hs Hc Hlen Hmax)
    as (li & Hli & Hlw & lb & Hlb & _).
  destruct (findHighestBar_first bars _ _ Hs Hc Hlen Hmax)
    as (hi & Hhi & Hhw & hb & Hhb & _).
  destruct (window_guard bars _ _ Hs Hc Hlen Hmax) as (Hsz & Hadd & _).
  unfold calculate. unfold CInt.add in *.
  rewrite Hsz, (Z.add_comm (bars_back self)), Hadd.
  destruct (Z.ltb_spec (Z.of_nat (length bars))
              (start_bar self + bars_back self)) as [Hlt|_]; [lia|].
  rewrite Hli, Hhi. cbn [mbind option_bind].
  destruct (Z.ltb_spec li 0); [lia|]. destruct (Z.ltb_spec hi 0); [lia|].
  cbn [orb]. rewrite Hhb, Hlb. cbn [mbind option_bind].
  destruct (dle (high hb) (dbl 0) || dle (low lb) (dbl 0)
            || dle (high hb) (low lb)).
  { eexists _, _. split; [reflexivity|]. split; discriminate. }
  destruct (last bars) as [back|] eqn:Hback.
  2:{ apply last_None in Hback. subst bars. simpl in Hlen. lia. }
  destruct (string_gt (time hb) (time lb));
    repeat (destruct (map_index _ _)); cbn [mbind option_bind];
    (eexists _, _; split; [reflexivity|]; split; discriminate).
Qed.

(** C5.  On a bar sequence that holds the whole window, with [barsBack >= 1]
    and [startBar >= 0], [findLowestBar] returns the first index of the window
    whose [low] is the least of the window and [findHighestBar] the first
    index whose [high] is the greatest; neither returns [-1], and [calculate]
    returns without the "Could not find highest/lowest bar" error.  The size
    of the vector fits an [int], as the cast in the code takes for granted. *)
Theorem C5_first_extreme_found (bars : list Bar) (startBar barsBack : Z) :
  0 <= startBar -> 1 <= barsBack ->
  startBar + barsBack <= Z.of_nat (length bars) ->
  Z.of_nat (length bars) <= CInt.INT_MAX ->
  (exists i, findLowestBar bars startBar barsBack = Some i /\
             first_lowest bars startBar barsBack i /\ i ≠ -1) /\
  (exists i, findHighestBar bars startBar barsBack = Some i /\
             first_highest bars startBar barsBack i /\ i ≠ -1) /\
  (forall self now,
      start_bar self = startBar -> bars_back self = barsBack ->
      exists r self', calculate self now bars = Some (r, self') /\
                      error r ≠ "Could not find highest/lowest bar").
Proof.
  intros Hs Hc Hlen Hmax. split; [|split].
  - destruct (findLowestBar_first bars _ _ Hs Hc Hlen Hmax) as (i & Hi & Hf).
    exists i. split; [done|]. split; [done|]. destruct Hf as [? _]. lia.
  - destruct (findHighestBar_first bars _ _ Hs Hc Hlen Hmax) as (i & Hi & Hf).
    exists i. split; [done|]. split; [done|]. destruct Hf as [? _]. lia.
  - intros self now <- <-.
    destruct (calculate_defined self now bars Hs Hc Hlen Hmax)
      as (r & self' & Hr & Herr & _).
    by exists r, self'.
Qed.

Lemma C5_first_extreme_found_witness :
  (exists i, findLowestBar Samples.scenario_a 0 5 = Some i /\
             first_lowest Samples.scenario_a 0 5 i /\ i ≠ -1) /\
  (exists i, findHighestBar Samples.scenario_a 0 5 = Some i /\
             first_highest Samples.scenario_a 0 5 i /\ i ≠ -1) /\
  (forall self now,
      start_bar self = 0 -> bars_back self = 5 ->
      exists r self', calculate self now Samples.scenario_a = Some (r, self') /\
                      error r ≠ "Could not find highest/lowest bar").
Proof.
  apply (C5_first_extreme_found Samples.scenario_a 0 5);
    unfold CInt.INT_MAX; simpl; lia.
Defined.

(** Scenario A of the specification, run. *)
Example scenario_a_extremes :
  findLowestBar Samples.scenario_a 0 5 = Some 1 /\
  findHighestBar Samples.scenario_a 0 5 = Some 4.
Proof. split; vm_compute; reflexivity. Qed.

(** Ties keep the earliest index. *)
Example tie_keeps_first :
  findLowestBar [Samples.bar "1" 5 3 4; Samples.bar "2" 5 3 4] 0 2 = Some 0 /\
  findHighestBar [Samples.bar "1" 5 3 4; Samples.bar "2" 5 3 4] 0 2 = Some 0.
Proof. split; vm_compute; reflexivity. Qed.

(** ** Arithmetic of the level prices *)

Lemma range_pos (h l : Qc) : (l < h)%Qc -> (dbl 0 < h - l)%Qc.
Proof. intros Hlh. by apply Qclt_minus_iff in Hlh. Qed.

Lemma bullish_price_lt (h l r1 r2 : Qc) :
  (l < h)%Qc ->
  (r1 < r2)%Qc <-> (level_price true h l r1 < level_price true h l r2)%Qc.
Proof.
  intros Hlh. unfold level_price.
  rewrite <- Qcplus_lt_mono_l.
  apply Qcmult_lt_mono_pos_l. by apply range_pos.
Qed.

Lemma bearish_price_lt (h l r1 r2 : Qc) :
  (l < h)%Qc ->
  (r1 < r2)%Qc <-> (level_price false h l r2 < level_price false h l r1)%Qc.
Proof.
  intros Hlh. unfold level_price.
  rewrite (Qclt_minus_iff (h - (h - l) * r2)).
  replace (h - (h - l) * r1 + - (h - (h - l) * r2))%Qc
    with ((h - l) * r2 + - ((h - l) * r1))%Qc by ring.
  rewrite <- Qclt_minus_iff.
  apply Qcmult_lt_mono_pos_l. by apply range_pos.
Qed.

Lemma bullish_price_le (h l r1 r2 : Qc) :
  (l < h)%Qc ->
  (r1 ≤ r2)%Qc <-> (level_price true h l r1 ≤ level_price true h l r2)%Qc.
Proof.
  intros Hlh. rewrite !Qcle_ngt. by rewrite <- bullish_price_lt.
Qed.

Lemma bearish_price_le (h l r1 r2 : Qc) :
  (l < h)%Qc ->
  (r1 ≤ r2)%Qc <-> (level_price false h l r2 ≤ level_price false h l r1)%Qc.
Proof.
  intros Hlh. rewrite !Qcle_ngt. by rewrite <- bearish_price_lt.
Qed.

Lemma dbl_zero : dbl 0.000 = dbl 0.
Proof. apply Qc_is_canon. reflexivity. Qed.


Lemma level_price_zero bull (h l : Qc) :
  level_price bull h l (dbl 0.000) = if bull then l else h.
Proof. rewrite dbl_zero. unfold level_price, dbl. destruct bull; ring. Qed.

(** The trend string of an error-free result tells the branch taken. *)
Lemma trend_bullish (b : bool) :
  (if b then "BULLISH" else "BEARISH") = "BULLISH" <-> b = true.
Proof. destruct b; split; (done || discriminate). Qed.

Lemma trend_bearish (b : bool) :
  (if b then "BULLISH" else "BEARISH") = "BEARISH" <-> b = false.
Proof. destruct b; split; (done || discriminate). Qed.

(** ** Claims about the levels *)


(** The same happens on the bearish side, where the level of ratio 1.0 comes
    out below the low.  In both runs [level_7] is [low + range], resp.
    [high - range], as computed. *)
Example binary64_level_7_below_low :
  let up := (Binary64.run (Binary64.rising 1.03 2 3.19 2)).1 in
  let down := (Binary64.run (Binary64.falling 1.03 2 3.19 2)).1 in
  Binary64.error down = "" /\ Binary64.trend down = "BEARISH" /\
  Binary64.low_value down = 1.03%float /\
  Binary64.fibo_levels down !! "level_7" = Some 1.0299999999999998%float /\
  (1.0299999999999998 <? 1.03)%float = true /\
  Binary64.fibo_levels down !! "level_7"
  = Some (Binary64.high_value down - Binary64.fibo_range down)%float /\
  Binary64.fibo_levels up !! "level_7"
  = Some (Binary64.low_value up + Binary64.fibo_range up)%float.
Proof. repeat split; vm_compute; reflexivity. Qed.


Lemma run_a_defined :
  calculate Runs.ind_a Runs.stamp Samples.scenario_a
  = Some (Runs.res_a, Runs.ind_a').
Proof. vm_compute. reflexivity. Qed.

Lemma run_b_defined :
  calculate Runs.ind_a Runs.stamp Runs.bearish_bars
  = Some (Runs.res_b, Runs.ind_b').
Proof. vm_compute. reflexivity. Qed.

Lemma run_swapped_defined :
  calculate Runs.ind_swapped Runs.stamp Runs.swapped_bars
  = Some (Runs.res_swapped, Runs.ind_swapped').
Proof. vm_compute. reflexivity. Qed.


(** Scenario A: [levels[0.618] = 8 + 9 * 0.618 = 13.562]. *)
Example scenario_a_level_618 :
  trend Runs.res_a = "BULLISH" /\
  fibo_range Runs.res_a = dbl 9 /\
  fibo_levels Runs.res_a !! "level_4" = Some (dbl 13.562).
Proof.
  split; [reflexivity|]. split.
  - apply Qc_is_canon. vm_compute. reflexivity.
  - assert (H : is_Some (fibo_levels Runs.res_a !! "level_4")).
    { vm_compute. eauto. }
    destruct H as [p Hp]. rewrite Hp. f_equal.
    apply Qc_is_canon.
    assert (Hq : this <$> fibo_levels Runs.res_a !! "level_4"
                 = Some (this (dbl 13.562))) by (vm_compute; reflexivity).
    rewrite Hp in Hq. simpl in Hq. injection Hq as ->. reflexivity.
Qed.




(** ** Claims about the golden zone *)


(** Rounding is a second way to lose the strict order: with the default
    ratios, the low on the double below 2 and the high on the double above 2,
    the result is error-free in binary64 and both bounds of the zone are 2. *)
Example binary64_default_zone_can_collapse :
  let r := (Binary64.run (Binary64.rising (PrimFloat.next_down 2) 2
                            (PrimFloat.next_up 2) 2)).1 in
  Binary64.error r = "" /\ Binary64.trend r = "BULLISH" /\
  (Binary64.low_value r <? Binary64.high_value r)%float = true /\
  Binary64.golden_zone_low r = 2%float /\
  Binary64.golden_zone_high r = 2%float.
Proof. repeat split; vm_compute; reflexivity. Qed.



(** C9, as stated, fails in its last part: with the two golden-zone ratios
    installed the other way round, the current price equals [golden_zone_low]
    in an error-free result and yet [price_in_golden_zone] is false. *)
Lemma C9_counterexample :
  calculate Runs.ind_swapped Runs.stamp Runs.swapped_bars
  = Some (Runs.res_swapped, Runs.ind_swapped') /\
  error Runs.res_swapped = "" /\
  current_price Runs.res_swapped = golden_zone_low Runs.res_swapped /\
  price_in_golden_zone Runs.res_swapped = false.
Proof.
  split; [apply run_swapped_defined|]. split; [reflexivity|]. split.
  - apply Qc_is_canon. vm_compute. reflexivity.
  - vm_compute. reflexivity.
Qed.

(** C9, amended.  In an error-free result [current_price] is the close of the
    last bar of the window handed to [calculate], and [price_in_golden_zone]
    is true exactly when [golden_zone_low <= current_price <=
    golden_zone_high], both ends included.  When [golden_zone_low] is not
    above [golden_zone_high] -- which is so as soon as the ratio read under
    [level_2] is not above the one read under [level_4], as with the default
    ratios -- a current price equal to [golden_zone_low] is in the zone. *)
Theorem C9_zone_membership self now bars r self' :
  calculate self now bars = Some (r, self') -> error r = "" ->
  (exists back, last bars = Some back /\ current_price r = close back) /\
  (price_in_golden_zone r = true <->
   (golden_zone_low r ≤ current_price r)%Qc /\
   (current_price r ≤ golden_zone_high r)%Qc) /\
  ((read_ratio (fibo_level_values self) "level_2"
    ≤ read_ratio (fibo_level_values self) "level_4")%Qc ->
   (golden_zone_low r ≤ golden_zone_high r)%Qc) /\
  ((golden_zone_low r ≤ golden_zone_high r)%Qc ->
   current_price r = golden_zone_low r ->
   price_in_golden_zone r = true).
Proof.
  intros Hcalc Herr.
  destruct (calculate_inv _ _ _ _ _ Hcalc Herr)
    as (hi & li & hb & lb & back & H).
  destruct H.
  assert (Hzone : price_in_golden_zone r = true <->
                  (golden_zone_low r ≤ current_price r)%Qc /\
                  (current_price r ≤ golden_zone_high r)%Qc).
  { rewrite cs_in_zone0, andb_true_iff, !dle_true. reflexivity. }
  split; [by exists back|]. split; [exact Hzone|]. split.
  - intros Hratio. rewrite cs_zone_low0, cs_zone_high0.
    destruct (string_gt (time hb) (time lb)).
    + by apply bullish_price_le.
    + by apply bearish_price_le.
  - intros Hle Heq. apply Hzone. rewrite Heq. split; [apply Qcle_refl | done].
Qed.

Lemma C9_zone_membership_witness :
  let ind := AutoFibIndicator_new 2 0 in
  let run := outcome (calculate ind Runs.stamp boundary_bars) in
  (calculate ind Runs.stamp boundary_bars = Some run /\ error run.1 = "") /\
  current_price run.1 = golden_zone_low run.1 /\
  price_in_golden_zone run.1 = true.
Proof.
  intros ind run.
  assert (Hrun : calculate ind Runs.stamp boundary_bars = Some (run.1, run.2)).
  { vm_compute. reflexivity. }
  assert (Heq : current_price run.1 = golden_zone_low run.1).
  { apply Qc_is_canon. vm_compute. reflexivity. }
  split; [split; [vm_compute; reflexivity | reflexivity]|].
  split; [exact Heq|].
  destruct (C9_zone_membership ind Runs.stamp boundary_bars run.1 run.2
              Hrun eq_refl) as (_ & _ & Hratio & Hin).
  apply Hin; [|exact Heq].
  apply Hratio. vm_compute. discriminate.
Defined.

(** ** Claims about the trend and the signal *)

(** An error-free result comes from a window that lies inside the bars. *)
Lemma error_free_window self now bars r self' :
  CInt.INT_MIN <= bars_back self + start_bar self <= CInt.INT_MAX ->
  Z.of_nat (length bars) <= CInt.INT_MAX ->
  calculate self now bars = Some (r, self') -> error r = "" ->
  valid_window self bars.
Proof.
  intros Hsum Hmax Hcalc Herr.
  destruct (calculate_inv _ _ _ _ _ Hcalc Herr)
    as (hi & li & hb & lb & back & H).
  destruct H as [Hhi _ Hpos].
  unfold findHighestBar in Hhi.
  destruct ((start_bar self <? 0) || (bars_back self <=? 0)
            || (CInt.of_size (length bars)
                <? CInt.add (start_bar self) (bars_back self))) eqn:Hg.
  { injection Hhi as <-. lia. }
  apply orb_false_elim in Hg as [Hg Hlen].
  apply orb_false_elim in Hg as [Hs Hc].
  apply Z.ltb_ge in Hs, Hlen. apply Z.leb_gt in Hc.
  unfold CInt.of_size, CInt.add in Hlen.
  rewrite !CInt_wrap_small in Hlen;
    unfold CInt.INT_MIN, CInt.INT_MAX in *; unfold valid_window, CInt.INT_MAX;
    lia.
Qed.

(** C7.  In an error-free result the high and the low are the extremes of the
    window, each at the first index that attains it, and the trend is bullish
    exactly when the time label of the bar of the high compares strictly
    greater than the time label of the bar of the low, in the byte-wise
    lexicographic order of strings; an equal or smaller label gives bearish.
    The sizes fit an [int], as the casts and the sum in the code take for
    granted. *)
Theorem C7_trend_by_time_labels self now bars r self' :
  CInt.INT_MIN <= bars_back self + start_bar self <= CInt.INT_MAX ->
  Z.of_nat (length bars) <= CInt.INT_MAX ->
  calculate self now bars = Some (r, self') -> error r = "" ->
  exists hb lb,
    first_highest bars (start_bar self) (bars_back self) (high_bar_index r) /\
    first_lowest bars (start_bar self) (bars_back self) (low_bar_index r) /\
    bar_at bars (high_bar_index r) = Some hb /\
    bar_at bars (low_bar_index r) = Some lb /\
    high_value r = high hb /\ low_value r = low lb /\
    high_time r = time hb /\ low_time r = time lb /\
    (trend r = "BULLISH" <-> String.compare (time hb) (time lb) = Gt) /\
    (trend r = "BEARISH" <-> String.compare (time hb) (time lb) ≠ Gt).
Proof.
  intros Hsum Hmax Hcalc Herr.
  destruct (error_free_window _ _ _ _ _ Hsum Hmax Hcalc Herr)
    as (Hs & Hc & Hlen & _).
  destruct (calculate_inv _ _ _ _ _ Hcalc Herr)
    as (hi & li & hb & lb & back & H).
  destruct H. exists hb, lb.
  destruct (findLowestBar_first bars _ _ Hs Hc Hlen Hmax)
    as (li' & Hli & Hfl).
  destruct (findHighestBar_first bars _ _ Hs Hc Hlen Hmax)
    as (hi' & Hhi & Hfh).
  rewrite cs_highest0 in Hhi. injection Hhi as <-.
  rewrite cs_lowest0 in Hli. injection Hli as <-.
  rewrite cs_high_index0, cs_low_index0, cs_trend0.
  do 8 (split; [done|]).
  rewrite trend_bullish, trend_bearish. unfold string_gt.
  destruct (String.compare (time hb) (time lb)); split; split;
    (done || discriminate).
Qed.

Lemma C7_trend_by_time_labels_witness :
  (calculate Runs.ind_a Runs.stamp Samples.scenario_a
   = Some (Runs.res_a, Runs.ind_a') /\ error Runs.res_a = "") /\
  (high_bar_index Runs.res_a = 4 /\ low_bar_index Runs.res_a = 1 /\
   high_time Runs.res_a = "20251006 09:50:00" /\
   low_time Runs.res_a = "20251006 09:35:00" /\
   trend Runs.res_a = "BULLISH") /\
  first_highest Samples.scenario_a 0 5 4 /\
  first_lowest Samples.scenario_a 0 5 1 /\
  String.compare "20251006 09:50:00" "20251006 09:35:00" = Gt.
Proof.
  split; [split; [apply run_a_defined | reflexivity]|].
  split; [repeat split; reflexivity|].
  destruct (C7_trend_by_time_labels Runs.ind_a Runs.stamp Samples.scenario_a
              Runs.res_a Runs.ind_a')
    as (hb & lb & Hfh & Hfl & Hhb & Hlb & _ & _ & _ & _ & Hbull & _).
  - unfold CInt.INT_MIN, CInt.INT_MAX. simpl. lia.
  - unfold CInt.INT_MAX. simpl. lia.
  - apply run_a_defined.
  - reflexivity.
  - split; [exact Hfh|]. split; [exact Hfl|].
    vm_compute in Hhb, Hlb. injection Hhb as <-. injection Hlb as <-.
    apply Hbull. reflexivity.
Defined.

(** The high before the low, and the high and the low on one bar (equal
    labels), both give a bearish trend. *)
Example earlier_or_equal_high_is_bearish :
  trend Runs.res_b = "BEARISH" /\
  (trend <$> (fst <$> calculate (AutoFibIndicator_new 1 0) Runs.stamp
                        [Samples.bar "20251006 09:30:00" 10 8 9]))
  = Some "BEARISH".
Proof. split; vm_compute; reflexivity. Qed.

(** Every call that returns stores its result in the object; a result with an
    error is the default-constructed record with only the error set. *)
Lemma calculate_cases self now bars r self' :
  calculate self now bars = Some (r, self') ->
  results self' = r /\
  ((exists e, e ≠ "" /\ r = error_results e) \/ error r = "").
Proof.
  intros Hcalc. unfold calculate in Hcalc.
  destruct (CInt.of_size (length bars) <? _).
  { injection Hcalc as <- <-. split; [done|]. left.
    eexists. split; [|reflexivity]. discriminate. }
  destruct (findLowestBar _ _ _) as [li|]; [|discriminate].
  destruct (findHighestBar _ _ _) as [hi|]; [|discriminate].
  cbn [mbind option_bind] in Hcalc.
  destruct ((li <? 0) || (hi <? 0)).
  { injection Hcalc as <- <-. split; [done|]. left.
    eexists. split; [|reflexivity]. discriminate. }
  destruct (bar_at bars hi) as [hb|]; [|discriminate].
  destruct (bar_at bars li) as [lb|]; [|discriminate].
  cbn [mbind option_bind] in Hcalc.
  destruct (dle (high hb) (dbl 0) || dle (low lb) (dbl 0)
            || dle (high hb) (low lb)).
  { injection Hcalc as <- <-. split; [done|]. left.
    eexists. split; [|reflexivity]. discriminate. }
  destruct (last bars) as [back|];
    destruct (string_gt (time hb) (time lb));
    repeat (destruct (map_index _ _));
    cbn [mbind option_bind] in Hcalc; try discriminate;
    injection Hcalc as <- <-; split; (done || by right).
Qed.

(** C8.  After a call of [calculate], [getSignal] returns "BUY" exactly when
    the trend is bullish and the price is in the golden zone, "SELL" exactly
    when the trend is bearish and the price is in the golden zone, "HOLD"
    exactly when the price is not in the golden zone and no error is set, and
    "NO_DATA" exactly when the error is set. *)
Theorem C8_signal_table self now bars r self' :
  calculate self now bars = Some (r, self') ->
  results self' = r /\
  (getSignal self' = "BUY" <->
   trend r = "BULLISH" /\ price_in_golden_zone r = true) /\
  (getSignal self' = "SELL" <->
   trend r = "BEARISH" /\ price_in_golden_zone r = true) /\
  (getSignal self' = "HOLD" <->
   price_in_golden_zone r = false /\ error r = "") /\
  (getSignal self' = "NO_DATA" <-> error r ≠ "").
Proof.
  intros Hcalc.
  destruct (calculate_cases _ _ _ _ _ Hcalc) as [Hres [(e & He & Hr)|Herr]].
  - split; [done|]. unfold getSignal. rewrite Hres, Hr.
    unfold error_results. cbn [error trend price_in_golden_zone].
    pose proof He as Hne. apply String.eqb_neq in He. rewrite He. cbn [negb].
    repeat split; try discriminate; try (by intros [? ?]); try done.
  - destruct (calculate_inv _ _ _ _ _ Hcalc Herr)
      as (hi & li & hb & lb & back & H).
    destruct H as [_ _ _ _ _ _ _ _ _ _ _ Htrend _ _ _ _ _ _ _ _ _ _ _ _].
    split; [done|]. unfold getSignal. rewrite Hres, Herr, Htrend.
    cbn [negb String.eqb].
    destruct (price_in_golden_zone r);
      destruct (string_gt (time hb) (time lb)); cbn;
      repeat split; try discriminate; try (by intros [? ?]); try done.
Qed.

Lemma C8_signal_table_witness :
  calculate Runs.ind_a Runs.stamp Samples.scenario_a
  = Some (Runs.res_a, Runs.ind_a') /\
  getSignal Runs.ind_a' = "BUY" /\
  trend Runs.res_a = "BULLISH" /\ price_in_golden_zone Runs.res_a = true.
Proof.
  split; [apply run_a_defined|]. split; [vm_compute; reflexivity|].
  destruct (C8_signal_table Runs.ind_a Runs.stamp Samples.scenario_a
              Runs.res_a Runs.ind_a' run_a_defined) as (_ & Hbuy & _).
  apply Hbuy. vm_compute. reflexivity.
Defined.

(** The four rows of the table, run. *)
Example signal_rows :
  getSignal Runs.ind_a' = "BUY" /\
  getSignal Runs.ind_b' = "SELL" /\
  getSignal Runs.ind_swapped' = "HOLD" /\
  (getSignal <$> (snd <$> calculate Runs.ind_a Runs.stamp [])) = Some "NO_DATA".
Proof. repeat split; vm_compute; reflexivity. Qed.

(** ** Repeated calls *)

Lemma with_timestamp_eq (r1 r2 : FibonacciResults) t :
  with_timestamp t r1 = with_timestamp t r2 -> timestamp r1 = timestamp r2 ->
  r1 = r2.
Proof.
  destruct r1, r2. unfold with_timestamp. simpl. intros H Ht.
  injection H as -> -> -> -> -> -> -> -> -> -> -> -> -> ->. by subst.
Qed.

(** The result depends on the object through its configuration only: the
    cached extremes and the stored result of an earlier call are not read. *)
Lemma calculate_reads_config (a b : AutoFibIndicator) now bars :
  same_config a b ->
  fst <$> calculate a now bars = fst <$> calculate b now bars.
Proof.
  destruct a, b. unfold same_config. cbn [bars_back start_bar fibo_level_values].
  intros (-> & -> & ->). unfold calculate.
  cbn [bars_back start_bar fibo_level_values].
  destruct (CInt.of_size (length bars) <? _); [reflexivity|].
  destruct (findLowestBar _ _ _) as [li|]; [|reflexivity].
  destruct (findHighestBar _ _ _) as [hi|]; [|reflexivity].
  cbn [mbind option_bind].
  destruct ((li <? 0) || (hi <? 0)); [reflexivity|].
  destruct (bar_at bars hi) as [hb|]; [|reflexivity].
  destruct (bar_at bars li) as [lb|]; [|reflexivity].
  cbn [mbind option_bind].
  destruct (dle (high hb) (dbl 0) || dle (low lb) (dbl 0)
            || dle (high hb) (low lb)); [reflexivity|].
  destruct (last bars) as [back|];
    destruct (string_gt (time hb) (time lb));
    repeat (destruct (map_index _ _)); reflexivity.
Qed.

Lemma map_index_present m k : is_Some (m !! k) -> (map_index m k).2 = m.
Proof. intros [v Hv]. unfold map_index. by rewrite Hv. Qed.

(** A call leaves [bars_back] and [start_bar] alone, and the level map too
    when it holds both golden-zone keys. *)
Lemma calculate_keeps_config self now bars r self' :
  is_Some (fibo_level_values self !! "level_2") ->
  is_Some (fibo_level_values self !! "level_4") ->
  calculate self now bars = Some (r, self') ->
  same_config self' self.
Proof.
  intros H2 H4 Hcalc. unfold calculate in Hcalc.
  pose proof (map_index_present _ _ H2) as E2.
  pose proof (map_index_present _ _ H4) as E4.
  destruct (CInt.of_size (length bars) <? _).
  { injection Hcalc as <- <-. done. }
  destruct (findLowestBar _ _ _) as [li|]; [|discriminate].
  destruct (findHighestBar _ _ _) as [hi|]; [|discriminate].
  cbn [mbind option_bind] in Hcalc.
  destruct ((li <? 0) || (hi <? 0)).
  { injection Hcalc as <- <-. done. }
  destruct (bar_at bars hi) as [hb|]; [|discriminate].
  destruct (bar_at bars li) as [lb|]; [|discriminate].
  cbn [mbind option_bind] in Hcalc.
  destruct (dle (high hb) (dbl 0) || dle (low lb) (dbl 0)
            || dle (high hb) (low lb)).
  { injection Hcalc as <- <-. done. }
  destruct (string_gt (time hb) (time lb)).
  - destruct (map_index (fibo_level_values self) "level_2") as [r2 m2].
    simpl in E2. subst m2.
    destruct (map_index (fibo_level_values self) "level_4") as [r4 m4].
    simpl in E4. subst m4.
    destruct (last bars); [|discriminate].
    cbn [mbind option_bind] in Hcalc. injection Hcalc as <- <-. done.
  - destruct (map_index (fibo_level_values self) "level_4") as [r4 m4].
    simpl in E4. subst m4.
    destruct (map_index (fibo_level_values self) "level_2") as [r2 m2].
    simpl in E2. subst m2.
    destruct (last bars); [|discriminate].
    cbn [mbind option_bind] in Hcalc. injection Hcalc as <- <-. done.
Qed.

(** The clock enters the result through the [timestamp] field only. *)
Lemma calculate_clock self now1 now2 bars r1 self1 :
  calculate self now1 bars = Some (r1, self1) ->
  exists r2 self2,
    calculate self now2 bars = Some (r2, self2) /\
    with_timestamp "" r2 = with_timestamp "" r1 /\
    (error r1 = "" -> timestamp r1 = now1 /\ timestamp r2 = now2) /\
    (error r1 ≠ "" -> r2 = r1).
Proof.
  intros Hcalc. unfold calculate in *.
  destruct (CInt.of_size (length bars) <? _).
  { injection Hcalc as <- <-. eexists _, _. split; [reflexivity|]. done. }
  destruct (findLowestBar _ _ _) as [li|]; [|discriminate].
  destruct (findHighestBar _ _ _) as [hi|]; [|discriminate].
  cbn [mbind option_bind] in *.
  destruct ((li <? 0) || (hi <? 0)).
  { injection Hcalc as <- <-. eexists _, _. split; [reflexivity|]. done. }
  destruct (bar_at bars hi) as [hb|]; [|discriminate].
  destruct (bar_at bars li) as [lb|]; [|discriminate].
  cbn [mbind option_bind] in *.
  destruct (dle (high hb) (dbl 0) || dle (low lb) (dbl 0)
            || dle (high hb) (low lb)).
  { injection Hcalc as <- <-. eexists _, _. split; [reflexivity|]. done. }
  destruct (last bars) as [back|];
    destruct (string_gt (time hb) (time lb));
    repeat (destruct (map_index _ _));
    cbn [mbind option_bind] in *; try discriminate;
    injection Hcalc as <- <-; (eexists _, _; split; [reflexivity|]; done).
Qed.

(** C3, as stated, fails: two consecutive calls on the same window, one second
    apart on the wall clock, return results that differ in [timestamp]. *)
Lemma C3_counterexample :
  exists r1 self1 r2 self2,
    calculate Runs.ind_a Runs.stamp Samples.scenario_a = Some (r1, self1) /\
    calculate self1 Runs.stamp' Samples.scenario_a = Some (r2, self2) /\
    r1 ≠ r2.
Proof.
  exists Runs.res_a, Runs.ind_a',
    (outcome (calculate Runs.ind_a' Runs.stamp' Samples.scenario_a)).1,
    (outcome (calculate Runs.ind_a' Runs.stamp' Samples.scenario_a)).2.
  split; [apply run_a_defined|]. split; [vm_compute; reflexivity|].
  intros Heq. apply (f_equal timestamp) in Heq. vm_compute in Heq.
  discriminate.
Qed.

(** C3, amended.  For an indicator whose level map holds [level_2] and
    [level_4] (the default map does), a second call of [calculate] on the
    same window returns a result that equals the first in every field other
    than [timestamp]; [timestamp] is the clock reading of each call, so the
    two results are equal when the clock reads the same.  The result is the
    one any indicator of the same configuration returns: the cache and the
    stored result of the first call are not read. *)
Theorem C3_repeat_up_to_timestamp self now1 now2 bars r1 self1 :
  is_Some (fibo_level_values self !! "level_2") ->
  is_Some (fibo_level_values self !! "level_4") ->
  calculate self now1 bars = Some (r1, self1) ->
  exists r2 self2,
    calculate self1 now2 bars = Some (r2, self2) /\
    with_timestamp "" r2 = with_timestamp "" r1 /\
    (error r1 = "" -> timestamp r1 = now1 /\ timestamp r2 = now2) /\
    (now1 = now2 -> r2 = r1) /\
    (forall other, same_config other self ->
                   fst <$> calculate other now2 bars = Some r2).
Proof.
  intros H2 H4 Hcalc.
  pose proof (calculate_keeps_config _ _ _ _ _ H2 H4 Hcalc) as Hcfg.
  destruct (calculate_clock self now1 now2 bars r1 self1 Hcalc)
    as (r2 & self2 & Hcalc2 & Hsame & Hstamp & Herr).
  pose proof (calculate_reads_config self1 self now2 bars Hcfg) as Hread.
  rewrite Hcalc2 in Hread. cbn [fmap option_fmap option_map fst] in Hread.
  destruct (calculate self1 now2 bars) as [[r2' self2']|] eqn:Hcalc1;
    [|discriminate].
  cbn [fmap option_fmap option_map fst] in Hread. injection Hread as ->.
  exists r2, self2'. split; [done|]. split; [done|]. split; [done|]. split.
  - intros <-. destruct (String.eqb_spec (error r1) "") as [He|He].
    + apply (with_timestamp_eq _ _ "" Hsame).
      destruct (Hstamp He) as [-> ->]. done.
    + by apply Herr.
  - intros other Hother.
    rewrite (calculate_reads_config other self now2 bars Hother), Hcalc2.
    reflexivity.
Qed.

Lemma C3_repeat_up_to_timestamp_witness :
  calculate Runs.ind_a Runs.stamp Samples.scenario_a
  = Some (Runs.res_a, Runs.ind_a') /\
  exists r2 self2,
    calculate Runs.ind_a' Runs.stamp' Samples.scenario_a = Some (r2, self2) /\
    with_timestamp "" r2 = with_timestamp "" Runs.res_a /\
    timestamp r2 = Runs.stamp'.
Proof.
  split; [apply run_a_defined|].
  destruct (C3_repeat_up_to_timestamp Runs.ind_a Runs.stamp Runs.stamp'
              Samples.scenario_a Runs.res_a Runs.ind_a')
    as (r2 & self2 & Hcalc & Hsame & Hstamp & _).
  - vm_compute. eauto.
  - vm_compute. eauto.
  - apply run_a_defined.
  - exists r2, self2. split; [done|]. split; [done|].
    by destruct (Hstamp eq_refl).
Defined.

(** Outside the amended claim: when the level map lacks [level_2] or
    [level_4], the read [fibo_level_values["level_2"]] inserts the key, and a
    second call on the same window returns two more levels than the first. *)
Example missing_level_keys_are_inserted :
  let first := outcome (calculate Runs.ind_empty Runs.stamp Runs.swapped_bars) in
  let second := outcome (calculate first.2 Runs.stamp Runs.swapped_bars) in
  error first.1 = "" /\ error second.1 = "" /\
  size (fibo_levels first.1) = 0%nat /\ size (fibo_levels second.1) = 2%nat.
Proof. vm_compute. repeat split; reflexivity. Qed.

(** ** Claims about the acquisition *)

(** C1, as stated, fails: for a request that has timed out with one bar in the
    buffer, [getHistoricalData] returns the empty sequence, not the buffer,
    and what it returns is what it returns for a request that has ended
    without a bar, so the caller cannot tell the two apart. *)
Lemma C1_counterexample :
  data_end_received Acquisition.timed_out = false /\
  historical_data Acquisition.timed_out = [Acquisition.bar1] /\
  (getHistoricalData Acquisition.timed_out []).1 = [] /\
  data_end_received Acquisition.ended_empty = true /\
  (getHistoricalData Acquisition.timed_out []).1
  = (getHistoricalData Acquisition.ended_empty []).1.
Proof. repeat split. Qed.

(** The polling loop and the callbacks leave the indicator alone. *)
Lemma processMsgs_indicator (client : IBKRAutoFibClient) (batch : list Callback) :
  indicator (processMsgs client batch) = indicator client.
Proof.
  revert client. induction batch as [|cb batch IH]; intros client; [done|].
  simpl. unfold processMsgs in IH. rewrite IH. by destruct cb.
Qed.

Lemma poll_indicator (client : IBKRAutoFibClient) (batches : list (list Callback)) :
  indicator (poll client batches) = indicator client.
Proof.
  revert client. induction batches as [|b bs IH]; intros client; [done|].
  simpl. destruct (data_end_received client); [done|].
  by rewrite IH, processMsgs_indicator.
Qed.

(** C1, amended.  When the completion signal has not been delivered by the
    time the wait returns, [getHistoricalData] returns the empty sequence,
    whatever has accumulated in the buffer; the buffer stays in the client.
    There is no error value: [runIndicator] reports "No data received" and
    leaves its indicator alone.  A completed request returns its buffer, so
    the caller tells a timeout from a completed read of one bar or more, and
    not from a completed read of no bar. *)
Theorem C1_timeout_returns_empty (self : IBKRAutoFibClient)
    (during_wait : list Callback) :
  data_end_received (processMsgs self during_wait) = false ->
  getHistoricalData self during_wait = ([], processMsgs self during_wait) /\
  (forall batches now,
      data_end_received (poll (requestHistoricalData self true).2 batches)
      = false ->
      exists self',
        runIndicator self true batches now
        = Some (error_results "No data received", self') /\
        indicator self' = indicator self) /\
  (forall other arrived,
      data_end_received (processMsgs other arrived) = true ->
      (getHistoricalData other arrived).1
      = historical_data (processMsgs other arrived)).
Proof.
  intros Hwait. split; [|split].
  - unfold getHistoricalData. by rewrite Hwait.
  - intros batches now Hpoll. unfold runIndicator.
    cbn [requestHistoricalData negb snd] in *.
    unfold getHistoricalData. cbn [processMsgs foldl].
    rewrite Hpoll. cbn [negb]. eexists. split; [reflexivity|].
    by rewrite poll_indicator.
  - intros other arrived Hend. unfold getHistoricalData. by rewrite Hend.
Qed.

Lemma C1_timeout_returns_empty_witness :
  data_end_received
    (processMsgs (requestHistoricalData IBKRAutoFibClient_new true).2
                 [CbHistoricalData 1 Acquisition.bar1]) = false /\
  getHistoricalData (requestHistoricalData IBKRAutoFibClient_new true).2
                    [CbHistoricalData 1 Acquisition.bar1]
  = ([], Acquisition.timed_out).
Proof.
  split; [reflexivity|].
  apply (C1_timeout_returns_empty
           (requestHistoricalData IBKRAutoFibClient_new true).2
           [CbHistoricalData 1 Acquisition.bar1]).
  reflexivity.
Defined.

(** A request that times out in the polling loop of [runIndicator], with one
    bar delivered. *)
Example runIndicator_timeout :
  (fst <$> runIndicator IBKRAutoFibClient_new true
             [[CbHistoricalData 1 Acquisition.bar1]; []] Runs.stamp)
  = Some (error_results "No data received").
Proof. reflexivity. Qed.

(** C2, as stated, fails in its second half: when the request ends without a
    bar, [runIndicator] reports "No data received", not the engine's
    "Not enough bars", and its indicator is left as it was: [calculate] has
    not been called. *)
Lemma C2_counterexample :
  exists r client',
    runIndicator IBKRAutoFibClient_new true [[CbHistoricalDataEnd 1 "" ""]]
                 Runs.stamp = Some (r, client') /\
    data_end_received client' = true /\
    error r = "No data received" /\
    error r ≠ "Not enough bars" /\
    results (indicator client') = FibonacciResults_new.
Proof.
  eexists _, _. split; [reflexivity|].
  split; [reflexivity|]. split; [reflexivity|]. split; [discriminate|].
  reflexivity.
Qed.

(** C2, amended.  When the producer delivers no bar and then the end of the
    data, [getHistoricalData] returns the empty sequence with the completion
    flag set (the same sequence as after a timeout); [runIndicator] then
    reports "No data received" without calling [calculate].  Called on the
    empty sequence, [calculate] of the client's indicator ([barsBack = 20],
    [startBar = 0]) reports "Not enough bars". *)
Theorem C2_empty_stream (client : IBKRAutoFibClient) (now : string)
    (reqId : Z) (startDateStr endDateStr : string) :
  bars_back (indicator client) = 20 ->
  start_bar (indicator client) = 0 ->
  let requested := (requestHistoricalData client true).2 in
  let ended := historicalDataEnd requested reqId startDateStr endDateStr in
  data_end_received ended = true /\
  getHistoricalData requested [CbHistoricalDataEnd reqId startDateStr endDateStr]
  = ([], ended) /\
  runIndicator client true
    [[CbHistoricalDataEnd reqId startDateStr endDateStr]] now
  = Some (error_results "No data received", ended) /\
  indicator ended = indicator client /\
  fst <$> calculate (indicator client) now []
  = Some (error_results "Not enough bars").
Proof.
  intros Hback Hstart requested ended.
  split; [reflexivity|]. split; [reflexivity|]. split; [reflexivity|].
  split; [reflexivity|].
  unfold calculate. rewrite Hback, Hstart. reflexivity.
Qed.

Lemma C2_empty_stream_witness :
  (bars_back (indicator IBKRAutoFibClient_new) = 20 /\
   start_bar (indicator IBKRAutoFibClient_new) = 0) /\
  runIndicator IBKRAutoFibClient_new true [[CbHistoricalDataEnd 1 "" ""]]
               Runs.stamp
  = Some (error_results "No data received", Acquisition.ended_empty) /\
  fst <$> calculate (indicator IBKRAutoFibClient_new) Runs.stamp []
  = Some (error_results "Not enough bars").
Proof.
  split; [split; reflexivity|].
  destruct (C2_empty_stream IBKRAutoFibClient_new Runs.stamp 1 "" ""
              eq_refl eq_refl) as (_ & _ & Hrun & _ & Hcalc).
  split; [exact Hrun | exact Hcalc].
Defined.

(** * Further properties of the engine *)

(** On a valid window [calculate] returns, with the two extremes found, and
    its error tells whether they pass the price check. *)
Lemma calculate_on_valid_window self now bars :
  valid_window self bars ->
  exists hi li hb lb r self',
    findHighestBar bars (start_bar self) (bars_back self) = Some hi /\
    findLowestBar bars (start_bar self) (bars_back self) = Some li /\
    first_highest bars (start_bar self) (bars_back self) hi /\
    first_lowest bars (start_bar self) (bars_back self) li /\
    bar_at bars hi = Some hb /\ bar_at bars li = Some lb /\
    calculate self now bars = Some (r, self') /\
    ((error r = "Invalid price data" /\
      ((high hb ≤ dbl 0)%Qc \/ (low lb ≤ dbl 0)%Qc \/ (high hb ≤ low lb)%Qc))
     \/
     (error r = "" /\
      (dbl 0 < high hb)%Qc /\ (dbl 0 < low lb)%Qc /\ (low lb < high hb)%Qc)).
Proof.
  intros (Hs & Hc & Hlen & Hmax).
  destruct (findLowestBar_first bars _ _ Hs Hc Hlen Hmax) as (li & Hli & Hfl).
  destruct (findHighestBar_first bars _ _ Hs Hc Hlen Hmax) as (hi & Hhi & Hfh).
  pose proof Hfl as (Hlw & lb & Hlb & _).
  pose proof Hfh as (Hhw & hb & Hhb & _).
  destruct (window_guard bars _ _ Hs Hc Hlen Hmax) as (Hsz & Hadd & _).
  exists hi, li, hb, lb.
  unfold calculate. unfold CInt.add in *.
  rewrite Hsz, (Z.add_comm (bars_back self)), Hadd.
  destruct (Z.ltb_spec (Z.of_nat (length bars))
              (start_bar self + bars_back self)) as [Hlt|_]; [lia|].
  rewrite Hli, Hhi. cbn [mbind option_bind].
  destruct (Z.ltb_spec li 0); [lia|]. destruct (Z.ltb_spec hi 0); [lia|].
  cbn [orb]. rewrite Hhb, Hlb. cbn [mbind option_bind].
  destruct (dle (high hb) (dbl 0)) eqn:Hh0.
  { apply dle_true in Hh0. eexists _, _. do 6 (split; [done|]).
    split; [reflexivity|]. left. split; [reflexivity | by left]. }
  destruct (dle (low lb) (dbl 0)) eqn:Hl0.
  { apply dle_true in Hl0. eexists _, _. do 6 (split; [done|]).
    split; [reflexivity|]. left. split; [reflexivity | by right; left]. }
  destruct (dle (high hb) (low lb)) eqn:Hhl.
  { apply dle_true in Hhl. eexists _, _. do 6 (split; [done|]).
    split; [reflexivity|]. left. split; [reflexivity | by right; right]. }
  apply dle_false in Hh0, Hl0, Hhl. cbn [orb].
  destruct (last bars) as [back|] eqn:Hback.
  2:{ apply last_None in Hback. subst bars. simpl in Hlen. lia. }
  destruct (string_gt (time hb) (time lb));
    repeat (destruct (map_index _ _)); cbn [mbind option_bind];
    (eexists _, _; do 6 (split; [done|]); split; [reflexivity|];
     right; done).
Qed.

(** The extremes of an error-free result bound the window: the two indices
    lie in the window, [high_value] and [low_value] are read at them, and no
    bar of the window has a higher [high] or a lower [low]. *)
Theorem extremes_bound_window self now bars r self' :
  valid_window self bars ->
  calculate self now bars = Some (r, self') -> error r = "" ->
  in_window self (high_bar_index r) /\ in_window self (low_bar_index r) /\
  (exists hb, bar_at bars (high_bar_index r) = Some hb /\
              high hb = high_value r /\ time hb = high_time r) /\
  (exists lb, bar_at bars (low_bar_index r) = Some lb /\
              low lb = low_value r /\ time lb = low_time r) /\
  (forall j b, in_window self j -> bar_at bars j = Some b ->
               (high b ≤ high_value r)%Qc /\ (low_value r ≤ low b)%Qc).
Proof.
  intros (Hs & Hc & Hlen & Hmax) Hcalc Herr.
  destruct (calculate_inv _ _ _ _ _ Hcalc Herr)
    as (hi & li & hb & lb & back & H).
  destruct H.
  destruct (findLowestBar_first bars _ _ Hs Hc Hlen Hmax)
    as (li' & Hli & Hlw & lb' & Hlb & Hlmin & _).
  destruct (findHighestBar_first bars _ _ Hs Hc Hlen Hmax)
    as (hi' & Hhi & Hhw & hb' & Hhb & Hhmax & _).
  rewrite cs_highest0 in Hhi. injection Hhi as <-.
  rewrite cs_lowest0 in Hli. injection Hli as <-.
  rewrite cs_hb0 in Hhb. injection Hhb as <-.
  rewrite cs_lb0 in Hlb. injection Hlb as <-.
  rewrite cs_high_index0, cs_low_index0, cs_high_value0, cs_low_value0,
    cs_high_time0, cs_low_time0.
  unfold in_window. split; [done|]. split; [done|].
  split; [by exists hb|]. split; [by exists lb|].
  intros j b Hj Hb. split; [by eapply Hhmax | by eapply Hlmin].
Qed.

Lemma scenario_a_valid_window : valid_window Runs.ind_a Samples.scenario_a.
Proof. unfold valid_window, CInt.INT_MAX. simpl. lia. Qed.

Lemma extremes_bound_window_witness :
  (valid_window Runs.ind_a Samples.scenario_a /\
   calculate Runs.ind_a Runs.stamp Samples.scenario_a
   = Some (Runs.res_a, Runs.ind_a') /\ error Runs.res_a = "") /\
  forall j b, in_window Runs.ind_a j -> bar_at Samples.scenario_a j = Some b ->
              (high b ≤ high_value Runs.res_a)%Qc /\
              (low_value Runs.res_a ≤ low b)%Qc.
Proof.
  split; [split; [apply scenario_a_valid_window
                 | split; [apply run_a_defined | reflexivity]]|].
  apply (extremes_bound_window Runs.ind_a Runs.stamp Samples.scenario_a
           Runs.res_a Runs.ind_a' scenario_a_valid_window run_a_defined
           eq_refl).
Defined.

(** Well-formed bars never fail the price check: when every bar of a valid
    window has [0 < low <= high] and one of them has [low < high],
    [calculate] returns an error-free result. *)
Theorem wellformed_window_succeeds self now bars :
  valid_window self bars ->
  (forall j b, in_window self j -> bar_at bars j = Some b ->
               (dbl 0 < low b)%Qc /\ (low b ≤ high b)%Qc) ->
  (exists j b, in_window self j /\ bar_at bars j = Some b /\
               (low b < high b)%Qc) ->
  exists r self', calculate self now bars = Some (r, self') /\ error r = "".
Proof.
  intros Hvalid Hwf (j & b & Hj & Hb & Hlt).
  destruct (calculate_on_valid_window self now bars Hvalid)
    as (hi & li & hb & lb & r & self' & _ & _ & Hfh & Hfl & Hhb & Hlb
        & Hcalc & Hcases).
  exists r, self'. split; [done|].
  destruct Hcases as [[_ Hbad]|[Herr _]]; [exfalso|done].
  destruct Hfh as (Hhw & hb' & Hhb' & Hhmax & _).
  destruct Hfl as (Hlw & lb' & Hlb' & Hlmin & _).
  rewrite Hhb in Hhb'. injection Hhb' as <-.
  rewrite Hlb in Hlb'. injection Hlb' as <-.
  destruct (Hwf _ _ Hlw Hlb) as [Hlpos _].
  destruct (Hwf _ _ Hhw Hhb) as [Hhpos Hhle].
  pose proof (Hhmax j b Hj Hb) as Hbh. pose proof (Hlmin j b Hj Hb) as Hbl.
  assert (Hlh : (low lb < high hb)%Qc).
  { eapply Qcle_lt_trans; [exact Hbl|]. by eapply Qclt_le_trans. }
  destruct Hbad as [H0|[H0|H0]].
  - apply Qcle_not_lt in H0. apply H0.
    eapply Qclt_le_trans; [exact Hhpos | exact Hhle].
  - by apply Qcle_not_lt in H0.
  - by apply Qcle_not_lt in H0.
Qed.

Lemma wellformed_window_succeeds_witness :
  exists r self',
    calculate Runs.ind_a Runs.stamp Samples.scenario_a = Some (r, self') /\
    error r = "".
Proof.
  apply (wellformed_window_succeeds Runs.ind_a Runs.stamp Samples.scenario_a
           scenario_a_valid_window).
  - intros j b [Hj1 Hj2] Hb. change (start_bar Runs.ind_a) with 0 in *.
    change (bars_back Runs.ind_a) with 5 in *.
    assert (Hcases : j = 0 \/ j = 1 \/ j = 2 \/ j = 3 \/ j = 4) by lia.
    destruct Hcases as [-> | [-> | [-> | [-> | ->]]]];
      vm_compute in Hb; injection Hb as <-; split; vm_compute;
      (reflexivity || discriminate).
  - exists 0, (Samples.bar "20251006 09:30:00" 15 10 12).
    split; [vm_compute; split; [discriminate | reflexivity]|].
    split; [reflexivity|]. vm_compute. reflexivity.
Defined.

(** ** Which error a call ends in *)

(** With sizes that fit an [int], the two guards read as written. *)
Lemma int_guards (self : AutoFibIndicator) (bars : list Bar) :
  CInt.INT_MIN <= bars_back self + start_bar self <= CInt.INT_MAX ->
  Z.of_nat (length bars) <= CInt.INT_MAX ->
  CInt.of_size (length bars) = Z.of_nat (length bars) /\
  CInt.add (bars_back self) (start_bar self) = bars_back self + start_bar self /\
  CInt.add (start_bar self) (bars_back self) = bars_back self + start_bar self.
Proof.
  intros Hsum Hmax. unfold CInt.of_size, CInt.add.
  rewrite (Z.add_comm (start_bar self)). rewrite !CInt_wrap_small; [done| |].
  - done.
  - unfold CInt.INT_MIN, CInt.INT_MAX in *. lia.
Qed.

(** Every call on sizes that fit an [int] returns, and its error is decided
    by the sizes first and by the prices of the extremes after. *)
Lemma calculate_classified self now bars :
  CInt.INT_MIN <= bars_back self + start_bar self <= CInt.INT_MAX ->
  Z.of_nat (length bars) <= CInt.INT_MAX ->
  exists r self',
    calculate self now bars = Some (r, self') /\
    ((Z.of_nat (length bars) < bars_back self + start_bar self /\
      error r = "Not enough bars") \/
     (bars_back self + start_bar self <= Z.of_nat (length bars) /\
      (start_bar self < 0 \/ bars_back self <= 0) /\
      error r = "Could not find highest/lowest bar") \/
     (valid_window self bars /\
      (error r = "Invalid price data" \/ error r = ""))).
Proof.
  intros Hsum Hmax.
  destruct (int_guards self bars Hsum Hmax) as (Hsz & Hadd & Hadd').
  destruct (Z.lt_ge_cases (Z.of_nat (length bars))
              (bars_back self + start_bar self)) as [Hshort|Hlong].
  { unfold calculate. rewrite Hsz, Hadd.
    destruct (Z.ltb_spec (Z.of_nat (length bars))
                (bars_back self + start_bar self)); [|lia].
    eexists _, _. split; [reflexivity|]. left. done. }
  destruct (decide (start_bar self < 0 \/ bars_back self <= 0)) as [Hbad|Hok].
  { unfold calculate, findLowestBar, findHighestBar. rewrite Hsz, Hadd, Hadd'.
    destruct (Z.ltb_spec (Z.of_nat (length bars))
                (bars_back self + start_bar self)); [lia|].
    assert (Hg : (start_bar self <? 0) || (bars_back self <=? 0) = true).
    { apply orb_true_iff. destruct Hbad as [Hb|Hb].
      - left. by apply Z.ltb_lt.
      - right. by apply Z.leb_le. }
    rewrite Hg. cbn [orb mbind option_bind Z.ltb Z.compare].
    eexists _, _. split; [reflexivity|]. right. left. done. }
  assert (Hvalid : valid_window self bars).
  { unfold valid_window. lia. }
  destruct (calculate_on_valid_window self now bars Hvalid)
    as (hi & li & hb & lb & r & self' & _ & _ & _ & _ & _ & _ & Hcalc & Hc).
  exists r, self'. split; [done|]. right. right. split; [done|].
  destruct Hc as [[He _]|[He _]]; auto.
Qed.

(** [calculate] reports "Not enough bars" exactly when the vector is shorter
    than [bars_back + start_bar]. *)
Theorem not_enough_bars_iff self now bars :
  CInt.INT_MIN <= bars_back self + start_bar self <= CInt.INT_MAX ->
  Z.of_nat (length bars) <= CInt.INT_MAX ->
  exists r self',
    calculate self now bars = Some (r, self') /\
    (error r = "Not enough bars" <->
     Z.of_nat (length bars) < bars_back self + start_bar self).
Proof.
  intros Hsum Hmax.
  destruct (calculate_classified self now bars Hsum Hmax)
    as (r & self' & Hcalc & Hcases).
  exists r, self'. split; [done|].
  destruct Hcases as [[Hlt He]|[(Hge & _ & He)|[(_ & _ & Hge & _) He]]].
  - by rewrite He.
  - rewrite He. split; [discriminate | lia].
  - split; [|lia]. by destruct He as [-> | ->].
Qed.

Lemma not_enough_bars_iff_witness :
  exists r self',
    calculate (AutoFibIndicator_new 20 0) Runs.stamp Samples.scenario_a
    = Some (r, self') /\
    (error r = "Not enough bars" <->
     Z.of_nat (length Samples.scenario_a) < 20 + 0).
Proof.
  apply (not_enough_bars_iff (AutoFibIndicator_new 20 0) Runs.stamp
           Samples.scenario_a); unfold CInt.INT_MIN, CInt.INT_MAX; simpl; lia.
Defined.

(** [calculate] reports "Could not find highest/lowest bar" exactly when the
    vector is long enough for [bars_back + start_bar] and yet [start_bar] is
    negative or [bars_back] is not positive: the error is reachable, through
    the constructor arguments only. *)
Theorem extreme_not_found_iff self now bars :
  CInt.INT_MIN <= bars_back self + start_bar self <= CInt.INT_MAX ->
  Z.of_nat (length bars) <= CInt.INT_MAX ->
  exists r self',
    calculate self now bars = Some (r, self') /\
    (error r = "Could not find highest/lowest bar" <->
     bars_back self + start_bar self <= Z.of_nat (length bars) /\
     (start_bar self < 0 \/ bars_back self <= 0)).
Proof.
  intros Hsum Hmax.
  destruct (calculate_classified self now bars Hsum Hmax)
    as (r & self' & Hcalc & Hcases).
  exists r, self'. split; [done|].
  destruct Hcases as [[Hlt He]|[(Hge & Hbad & He)|[(? & ? & ? & ?) He]]].
  - rewrite He. split; [discriminate | lia].
  - by rewrite He.
  - split; [|lia]. by destruct He as [-> | ->].
Qed.

Lemma extreme_not_found_iff_witness :
  exists r self',
    calculate (AutoFibIndicator_new 0 0) Runs.stamp Samples.scenario_a
    = Some (r, self') /\
    (error r = "Could not find highest/lowest bar" <->
     0 + 0 <= Z.of_nat (length Samples.scenario_a) /\ (0 < 0 \/ 0 <= 0)).
Proof.
  apply (extreme_not_found_iff (AutoFibIndicator_new 0 0) Runs.stamp
           Samples.scenario_a); unfold CInt.INT_MIN, CInt.INT_MAX; simpl; lia.
Defined.

(** On a valid window [calculate] reports "Invalid price data" exactly when
    no bar of the window has a positive [high], or some bar has a [low] that
    is not positive, or every [high] of the window is at most every [low] of
    the window (a flat window is the plain case). *)
Theorem invalid_price_data_iff self now bars :
  valid_window self bars ->
  exists r self',
    calculate self now bars = Some (r, self') /\
    (error r = "Invalid price data" \/ error r = "") /\
    (error r = "Invalid price data" <->
     (forall j b, in_window self j -> bar_at bars j = Some b ->
                  (high b ≤ dbl 0)%Qc) \/
     (exists j b, in_window self j /\ bar_at bars j = Some b /\
                  (low b ≤ dbl 0)%Qc) \/
     (forall j b j' b', in_window self j -> bar_at bars j = Some b ->
                        in_window self j' -> bar_at bars j' = Some b' ->
                        (high b ≤ low b')%Qc)).
Proof.
  intros Hvalid.
  destruct (calculate_on_valid_window self now bars Hvalid)
    as (hi & li & hb & lb & r & self' & _ & _ & Hfh & Hfl & Hhb & Hlb
        & Hcalc & Hcases).
  destruct Hfh as (Hhw & hb' & Hhb' & Hhmax & _).
  destruct Hfl as (Hlw & lb' & Hlb' & Hlmin & _).
  rewrite Hhb in Hhb'. injection Hhb' as <-.
  rewrite Hlb in Hlb'. injection Hlb' as <-.
  exists r, self'. split; [done|]. unfold in_window.
  destruct Hcases as [[He Hbad]|(He & Hh0 & Hl0 & Hlh)]; rewrite He.
  - split; [by left|]. split; [intros _|done].
    destruct Hbad as [H0|[H0|H0]].
    + left. intros j b Hj Hb.
      eapply Qcle_trans; [exact (Hhmax j b Hj Hb) | exact H0].
    + right. left. by exists li, lb.
    + right. right. intros j b j' b' Hj Hb Hj' Hb'.
      eapply Qcle_trans; [exact (Hhmax j b Hj Hb)|].
      eapply Qcle_trans; [exact H0 | exact (Hlmin j' b' Hj' Hb')].
  - split; [by right|]. split; [discriminate|]. intros [H0|[H0|H0]]; exfalso.
    + apply (Qclt_not_le _ _ Hh0). exact (H0 hi hb Hhw Hhb).
    + destruct H0 as (j & b & Hj & Hb & Hle).
      apply (Qclt_not_le _ _ Hl0).
      eapply Qcle_trans; [exact (Hlmin j b Hj Hb) | exact Hle].
    + apply (Qclt_not_le _ _ Hlh). exact (H0 hi hb li lb Hhw Hhb Hlw Hlb).
Qed.

(** A flat window: two bars with every price at 10. *)
Lemma invalid_price_data_iff_witness :
  exists r self',
    calculate (AutoFibIndicator_new 2 0) Runs.stamp
      [Samples.bar "1" 10 10 10; Samples.bar "2" 10 10 10] = Some (r, self') /\
    error r = "Invalid price data".
Proof.
  destruct (invalid_price_data_iff (AutoFibIndicator_new 2 0) Runs.stamp
              [Samples.bar "1" 10 10 10; Samples.bar "2" 10 10 10])
    as (r & self' & Hcalc & _ & Hiff).
  { unfold valid_window, CInt.INT_MAX. simpl. lia. }
  exists r, self'. split; [done|]. apply Hiff. right. right.
  intros j b j' b' [Hj1 Hj2] Hb [Hj1' Hj2'] Hb'.
  change (start_bar (AutoFibIndicator_new 2 0)) with 0 in *.
  change (bars_back (AutoFibIndicator_new 2 0)) with 2 in *.
  assert (Hc : j = 0 \/ j = 1) by lia.
  assert (Hc' : j' = 0 \/ j' = 1) by lia.
  destruct Hc as [-> | ->]; destruct Hc' as [-> | ->];
    vm_compute in Hb, Hb'; injection Hb as <-; injection Hb' as <-;
    vm_compute; discriminate.
Defined.

Lemma calculate_failed self now bars r self' :
  calculate self now bars = Some (r, self') -> error r ≠ "" ->
  r = error_results (error r) /\ self' = store_results self r.
Proof.
  intros Hcalc Herr. unfold calculate in Hcalc.
  destruct (CInt.of_size (length bars) <? _).
  { by injection Hcalc as <- <-. }
  destruct (findLowestBar _ _ _) as [li|]; [|discriminate].
  destruct (findHighestBar _ _ _) as [hi|]; [|discriminate].
  cbn [mbind option_bind] in Hcalc.
  destruct ((li <? 0) || (hi <? 0)).
  { by injection Hcalc as <- <-. }
  destruct (bar_at bars hi) as [hb|]; [|discriminate].
  destruct (bar_at bars li) as [lb|]; [|discriminate].
  cbn [mbind option_bind] in Hcalc.
  destruct (dle (high hb) (dbl 0) || dle (low lb) (dbl 0)
            || dle (high hb) (low lb)).
  { by injection Hcalc as <- <-. }
  destruct (last bars) as [back|];
    destruct (string_gt (time hb) (time lb));
    repeat (destruct (map_index _ _));
    cbn [mbind option_bind] in Hcalc; try discriminate;
    injection Hcalc as <- <-; by destruct Herr.
Qed.

(** A call that ends in an error returns the blank record with only the error
    set, and changes nothing in the object but the stored result: the window
    settings, the level map and the cached extremes stay. *)
Theorem failed_call_keeps_object self now bars r self' :
  calculate self now bars = Some (r, self') -> error r ≠ "" ->
  r = error_results (error r) /\
  results self' = r /\
  bars_back self' = bars_back self /\ start_bar self' = start_bar self /\
  fibo_level_values self' = fibo_level_values self /\
  last_lowest_bar self' = last_lowest_bar self /\
  last_highest_bar self' = last_highest_bar self /\
  last_high_value self' = last_high_value self /\
  last_low_value self' = last_low_value self /\
  last_is_bullish self' = last_is_bullish self.
Proof.
  intros Hcalc Herr.
  destruct (calculate_failed _ _ _ _ _ Hcalc Herr) as [Hr ->].
  split; [exact Hr|]. unfold store_results. cbn. repeat split.
Qed.

Lemma failed_call_keeps_object_witness :
  let run := outcome (calculate Runs.ind_a' Runs.stamp []) in
  (calculate Runs.ind_a' Runs.stamp [] = Some run /\ error run.1 ≠ "") /\
  last_highest_bar run.2 = 4 /\ last_lowest_bar run.2 = 1 /\
  getSignal run.2 = "NO_DATA".
Proof.
  intros run.
  assert (Hrun : calculate Runs.ind_a' Runs.stamp [] = Some (run.1, run.2)).
  { vm_compute. reflexivity. }
  assert (Herr : error run.1 ≠ "") by (vm_compute; discriminate).
  split; [split; [vm_compute; reflexivity | exact Herr]|].
  destruct (failed_call_keeps_object Runs.ind_a' Runs.stamp [] run.1 run.2
              Hrun Herr) as (_ & Hres & _ & _ & _ & -> & -> & _).
  split; [vm_compute; reflexivity|]. split; [vm_compute; reflexivity|].
  vm_compute. reflexivity.
Defined.

(** ** Where the levels lie *)



Example binary64_range_can_equal_high :
  let r := (Binary64.run (Binary64.rising 1 2 1e17 2)).1 in
  Binary64.error r = "" /\ Binary64.low_value r = 1%float /\
  Binary64.high_value r = 1e17%float /\ Binary64.fibo_range r = 1e17%float.
Proof. repeat split; vm_compute; reflexivity. Qed.





(** The zone is cut out of the levels: when the level map holds [level_2]
    and [level_4], the two bounds of the zone are the prices listed under
    these names, [level_2] below when the trend is bullish and [level_4]
    below when it is bearish. *)
Theorem zone_bounds_are_levels self now bars r self' (q2 q4 : Qc) :
  calculate self now bars = Some (r, self') -> error r = "" ->
  fibo_level_values self !! "level_2" = Some q2 ->
  fibo_level_values self !! "level_4" = Some q4 ->
  (trend r = "BULLISH" ->
   fibo_levels r !! "level_2" = Some (golden_zone_low r) /\
   fibo_levels r !! "level_4" = Some (golden_zone_high r)) /\
  (trend r = "BEARISH" ->
   fibo_levels r !! "level_4" = Some (golden_zone_low r) /\
   fibo_levels r !! "level_2" = Some (golden_zone_high r)).
Proof.
  intros Hcalc Herr H2 H4.
  destruct (calculate_inv _ _ _ _ _ Hcalc Herr)
    as (hi & li & hb & lb & back & H).
  destruct H.
  rewrite cs_zone_low0, cs_zone_high0, cs_levels0, cs_trend0, !lookup_fmap,
    H2, H4.
  unfold read_ratio. split.
  - intros Hb%trend_bullish. rewrite Hb, H2, H4. done.
  - intros Hb%trend_bearish. rewrite Hb, H2, H4. done.
Qed.

Lemma zone_bounds_are_levels_witness :
  (calculate Runs.ind_a Runs.stamp Samples.scenario_a
   = Some (Runs.res_a, Runs.ind_a') /\ error Runs.res_a = "" /\
   trend Runs.res_a = "BULLISH") /\
  fibo_levels Runs.res_a !! "level_2" = Some (golden_zone_low Runs.res_a) /\
  fibo_levels Runs.res_a !! "level_4" = Some (golden_zone_high Runs.res_a).
Proof.
  split; [split; [apply run_a_defined | split; reflexivity]|].
  destruct (zone_bounds_are_levels Runs.ind_a Runs.stamp Samples.scenario_a
              Runs.res_a Runs.ind_a' (dbl 0.382) (dbl 0.618)
              run_a_defined eq_refl eq_refl eq_refl) as [Hbull _].
  apply Hbull. reflexivity.
Defined.

(** With the default ratios the bounds of the zone depend on the trend only
    by rounding: on scenario A and on its mirror image the bullish and the
    bearish zone differ in the last digit. *)
Example binary64_zone_by_trend :
  let up := (Binary64.run (Binary64.rising 8 12 17 13)).1 in
  let down := (Binary64.run (Binary64.falling 8 12 17 13)).1 in
  Binary64.trend up = "BULLISH" /\ Binary64.trend down = "BEARISH" /\
  Binary64.golden_zone_low up = 11.438000000000001%float /\
  Binary64.golden_zone_low down = 11.437999999999999%float /\
  Binary64.golden_zone_high up = 13.562000000000001%float /\
  Binary64.golden_zone_high down = 13.561999999999999%float.
Proof. repeat split; vm_compute; reflexivity. Qed.

(** ** The level map across a call *)

Lemma map_index_lookup (m : gmap string Qc) (k k' : string) :
  (map_index m k).2 !! k' =
  if decide (k' = k) then Some (read_ratio m k) else m !! k'.
Proof.
  unfold map_index, read_ratio. destruct (m !! k) as [v|] eqn:Hk; simpl.
  - case_decide; [by subst|done].
  - case_decide; [subst; by rewrite lookup_insert_eq|].
    by rewrite lookup_insert_ne.
Qed.

(** The level map that an error-free call leaves. *)
Lemma calculate_level_lookup self now bars r self' :
  calculate self now bars = Some (r, self') -> error r = "" ->
  bars_back self' = bars_back self /\ start_bar self' = start_bar self /\
  forall k, fibo_level_values self' !! k =
            if decide (k = "level_2" \/ k = "level_4")
            then Some (read_ratio (fibo_level_values self) k)
            else fibo_level_values self !! k.
Proof.
  intros Hcalc Herr. unfold calculate in Hcalc.
  destruct (CInt.of_size (length bars) <? _).
  { injection Hcalc as <- <-. discriminate. }
  destruct (findLowestBar _ _ _) as [li|]; [|discriminate].
  destruct (findHighestBar _ _ _) as [hi|]; [|discriminate].
  cbn [mbind option_bind] in Hcalc.
  destruct ((li <? 0) || (hi <? 0)).
  { injection Hcalc as <- <-. discriminate. }
  destruct (bar_at bars hi) as [hb|]; [|discriminate].
  destruct (bar_at bars li) as [lb|]; [|discriminate].
  cbn [mbind option_bind] in Hcalc.
  destruct (dle (high hb) (dbl 0) || dle (low lb) (dbl 0)
            || dle (high hb) (low lb)).
  { injection Hcalc as <- <-. discriminate. }
  destruct (string_gt (time hb) (time lb)).
  - pose proof (map_index_lookup (fibo_level_values self) "level_2") as L2.
    pose proof (read_ratio_map_index (fibo_level_values self)
                  "level_2" "level_4" ltac:(done)) as R4.
    destruct (map_index (fibo_level_values self) "level_2") as [r2 m2].
    pose proof (map_index_lookup m2 "level_4") as L4.
    destruct (map_index m2 "level_4") as [r4 m4].
    destruct (last bars); [|discriminate].
    cbn [mbind option_bind] in Hcalc. injection Hcalc as <- <-.
    cbn [snd] in *. repeat (split; [done|]). intros k.
    cbn [fibo_level_values]. rewrite L4, L2, R4.
    repeat destruct (decide _); subst;
      first [done | tauto | intuition congruence].
  - pose proof (map_index_lookup (fibo_level_values self) "level_4") as L4.
    pose proof (read_ratio_map_index (fibo_level_values self)
                  "level_4" "level_2" ltac:(done)) as R2.
    destruct (map_index (fibo_level_values self) "level_4") as [r4 m4].
    pose proof (map_index_lookup m4 "level_2") as L2.
    destruct (map_index m4 "level_2") as [r2 m2].
    destruct (last bars); [|discriminate].
    cbn [mbind option_bind] in Hcalc. injection Hcalc as <- <-.
    cbn [snd] in *. repeat (split; [done|]). intros k.
    cbn [fibo_level_values]. rewrite L2, L4, R2.
    repeat destruct (decide _); subst;
      first [done | tauto | intuition congruence].
Qed.

(** [calculate] never changes [bars_back] and [start_bar].  A call that ends
    in an error leaves the level map as it is; an error-free call leaves a
    map that holds [level_2] and [level_4], with ratio 0 where the key was
    missing, and every other entry as before. *)
Theorem level_map_after_call self now bars r self' :
  calculate self now bars = Some (r, self') ->
  bars_back self' = bars_back self /\ start_bar self' = start_bar self /\
  (error r ≠ "" -> fibo_level_values self' = fibo_level_values self) /\
  (error r = "" ->
   forall k, fibo_level_values self' !! k =
             if decide (k = "level_2" \/ k = "level_4")
             then Some (read_ratio (fibo_level_values self) k)
             else fibo_level_values self !! k).
Proof.
  intros Hcalc.
  destruct (String.eqb_spec (error r) "") as [Herr|Herr].
  - destruct (calculate_level_lookup _ _ _ _ _ Hcalc Herr) as (Hb & Hs & Hk).
    repeat split; done.
  - destruct (calculate_failed _ _ _ _ _ Hcalc Herr) as [_ ->]. done.
Qed.

Lemma level_map_after_call_witness :
  let run := outcome (calculate Runs.ind_empty Runs.stamp Runs.swapped_bars) in
  calculate Runs.ind_empty Runs.stamp Runs.swapped_bars = Some run /\
  fibo_level_values run.2 !! "level_2" = Some (dbl 0) /\
  fibo_level_values run.2 !! "level_3" = None.
Proof.
  intros run.
  assert (Hrun : calculate Runs.ind_empty Runs.stamp Runs.swapped_bars
                 = Some (run.1, run.2)) by (vm_compute; reflexivity).
  split; [vm_compute; reflexivity|].
  destruct (level_map_after_call Runs.ind_empty Runs.stamp Runs.swapped_bars
              run.1 run.2 Hrun) as (_ & _ & _ & Hmap).
  split; rewrite (Hmap eq_refl); reflexivity.
Defined.

Lemma in_zone_iff_between self now bars r self' :
  calculate self now bars = Some (r, self') -> error r = "" ->
  price_in_golden_zone r = true <->
  (golden_zone_low r ≤ current_price r)%Qc /\
  (current_price r ≤ golden_zone_high r)%Qc.
Proof.
  intros Hcalc Herr.
  destruct (calculate_inv _ _ _ _ _ Hcalc Herr)
    as (hi & li & hb & lb & back & H).
  destruct H. rewrite cs_in_zone0, andb_true_iff, !dle_true. reflexivity.
Qed.

(** A level map without [level_2] and [level_4] gives a golden zone of one
    price: both bounds are [low_value] when the trend is bullish and
    [high_value] when it is bearish, and the price is in the zone exactly
    when it equals that bound. *)
Theorem zone_without_keys_is_a_point self now bars r self' :
  calculate self now bars = Some (r, self') -> error r = "" ->
  fibo_level_values self !! "level_2" = None ->
  fibo_level_values self !! "level_4" = None ->
  golden_zone_low r = golden_zone_high r /\
  (trend r = "BULLISH" -> golden_zone_low r = low_value r) /\
  (trend r = "BEARISH" -> golden_zone_low r = high_value r) /\
  (price_in_golden_zone r = true <-> current_price r = golden_zone_low r).
Proof.
  intros Hcalc Herr H2 H4.
  pose proof (in_zone_iff_between self now bars r self' Hcalc Herr) as Hzone.
  destruct (calculate_inv _ _ _ _ _ Hcalc Herr)
    as (hi & li & hb & lb & back & H).
  destruct H.
  assert (Hr : forall k, k = "level_2" \/ k = "level_4" ->
                         read_ratio (fibo_level_values self) k = dbl 0.000).
  { intros k [-> | ->]; unfold read_ratio; rewrite ?H2, ?H4; simpl;
      by rewrite dbl_zero. }
  assert (Hlow : golden_zone_low r
                 = if string_gt (time hb) (time lb) then low lb else high hb).
  { rewrite cs_zone_low0, Hr; [apply level_price_zero|].
    destruct (string_gt _ _); auto. }
  assert (Hhigh : golden_zone_high r
                  = if string_gt (time hb) (time lb) then low lb else high hb).
  { rewrite cs_zone_high0, Hr; [apply level_price_zero|].
    destruct (string_gt _ _); auto. }
  split; [congruence|]. rewrite cs_trend0, cs_low_value0, cs_high_value0.
  split; [intros Hb%trend_bullish; by rewrite Hlow, Hb|].
  split; [intros Hb%trend_bearish; by rewrite Hlow, Hb|].
  rewrite Hzone, Hhigh, <- Hlow. split.
  - intros [Ha Hb]. by apply Qcle_antisym.
  - intros ->. split; apply Qcle_refl.
Qed.

Lemma zone_without_keys_is_a_point_witness :
  let run := outcome (calculate Runs.ind_empty Runs.stamp Runs.swapped_bars) in
  (calculate Runs.ind_empty Runs.stamp Runs.swapped_bars = Some run /\
   error run.1 = "") /\
  golden_zone_low run.1 = golden_zone_high run.1 /\
  golden_zone_low run.1 = low_value run.1.
Proof.
  intros run.
  assert (Hrun : calculate Runs.ind_empty Runs.stamp Runs.swapped_bars
                 = Some (run.1, run.2)) by (vm_compute; reflexivity).
  split; [split; [vm_compute; reflexivity | reflexivity]|].
  destruct (zone_without_keys_is_a_point Runs.ind_empty Runs.stamp
              Runs.swapped_bars run.1 run.2 Hrun eq_refl eq_refl eq_refl)
    as (Heq & Hbull & _).
  split; [exact Heq|]. apply Hbull. reflexivity.
Defined.

(** ** What [calculate] reads of the bars *)

Lemma scan_ext key better (bars bars' : list Bar) n i idx v :
  (forall j, i <= j < i + Z.of_nat n -> bar_at bars' j = bar_at bars j) ->
  scan key better bars' n i idx v = scan key better bars n i idx v.
Proof.
  revert i idx v. induction n as [|n IH]; intros i idx v Hagree; [done|].
  simpl. rewrite (Hagree i) by lia.
  destruct (bar_at bars i) as [b|]; [|done]. simpl.
  destruct (better (key b) v); apply IH; intros j Hj; apply Hagree; lia.
Qed.

Lemma find_bars_ext (bars bars' : list Bar) start count :
  0 <= start -> 1 <= count ->
  start + count <= Z.of_nat (length bars) ->
  Z.of_nat (length bars) <= CInt.INT_MAX ->
  length bars' = length bars ->
  (forall j, start <= j < start + count -> bar_at bars' j = bar_at bars j) ->
  findLowestBar bars' start count = findLowestBar bars start count /\
  findHighestBar bars' start count = findHighestBar bars start count.
Proof.
  intros Hs Hc Hlen Hmax Hsame Hagree.
  destruct (window_guard bars start count Hs Hc Hlen Hmax) as (_ & Hadd & _).
  unfold findLowestBar, findHighestBar. rewrite Hsame, Hadd.
  replace (start + count - start) with count by lia.
  rewrite (Hagree start) by lia.
  split; destruct (_ || _); try done;
    destruct (bar_at bars start) as [b0|]; try done; simpl.
  - rewrite !lowest_scan_scan. apply scan_ext. intros j Hj. apply Hagree. lia.
  - rewrite !highest_scan_scan. apply scan_ext. intros j Hj. apply Hagree. lia.
Qed.

(** Of the bars, [calculate] reads the window and the close of the last bar,
    nothing else: two vectors of one length that agree on the window and on
    the close of their last bar give the same result and leave the same
    object.  The bars after the window count only through the last close. *)
Theorem only_window_and_last_close_are_read self now (bars bars' : list Bar) :
  valid_window self bars ->
  length bars' = length bars ->
  (forall j, in_window self j -> bar_at bars' j = bar_at bars j) ->
  close <$> last bars' = close <$> last bars ->
  calculate self now bars' = calculate self now bars.
Proof.
  intros Hvalid Hsame Hagree Hclose.
  pose proof Hvalid as (Hs & Hc & Hlen & Hmax).
  destruct (calculate_on_valid_window self now bars Hvalid)
    as (hi & li & hb & lb & r & s' & Hhi & Hli & Hfh & Hfl & Hhb & Hlb & _).
  destruct (find_bars_ext bars bars' _ _ Hs Hc Hlen Hmax Hsame Hagree)
    as [HfindL HfindH].
  unfold calculate. rewrite Hsame, HfindL, HfindH, Hli, Hhi.
  cbn [mbind option_bind].
  destruct (CInt.of_size (length bars) <? _); [done|].
  destruct ((li <? 0) || (hi <? 0)); [done|].
  rewrite (Hagree hi) by apply Hfh. rewrite (Hagree li) by apply Hfl.
  rewrite Hhb, Hlb. cbn [mbind option_bind].
  destruct (dle (high hb) (dbl 0) || dle (low lb) (dbl 0)
            || dle (high hb) (low lb)); [done|].
  destruct (last bars) as [b|], (last bars') as [b'|];
    simpl in Hclose; try discriminate.
  - injection Hclose as Hcl.
    destruct (string_gt (time hb) (time lb));
      repeat (destruct (map_index _ _)); cbn [mbind option_bind];
      by rewrite Hcl.
  - destruct (string_gt (time hb) (time lb));
      repeat (destruct (map_index _ _)); done.
Qed.

Lemma only_window_and_last_close_are_read_witness :
  let ind := AutoFibIndicator_new 3 0 in
  let bars' := <[3%nat := Samples.bar "20251006 09:45:00" 100 1 50]>
                 Samples.scenario_a in
  bars' !! 3%nat ≠ Samples.scenario_a !! 3%nat /\
  calculate ind Runs.stamp bars' = calculate ind Runs.stamp Samples.scenario_a.
Proof.
  intros ind bars'. split; [discriminate|].
  apply (only_window_and_last_close_are_read ind Runs.stamp
           Samples.scenario_a bars').
  - unfold valid_window, CInt.INT_MAX. simpl. lia.
  - reflexivity.
  - intros j [Hj1 Hj2].
    change (start_bar ind) with 0 in *. change (bars_back ind) with 3 in *.
    assert (Hc : j = 0 \/ j = 1 \/ j = 2) by lia.
    destruct Hc as [-> | [-> | ->]]; reflexivity.
  - reflexivity.
Defined.

(** * Further properties of the acquisition *)

Lemma processMsgs_app (self : IBKRAutoFibClient) (a b : list Callback) :
  processMsgs self (a ++ b) = processMsgs (processMsgs self a) b.
Proof. unfold processMsgs. apply foldl_app. Qed.

(** What the callbacks do to the buffer and to the flags. *)
Lemma processMsgs_state (self : IBKRAutoFibClient) (cbs : list Callback) :
  historical_data (processMsgs self cbs) = historical_data self ++ bars_of cbs /\
  data_end_received (processMsgs self cbs)
  = data_end_received self || has_end cbs /\
  data_ready (processMsgs self cbs) = data_ready self || has_end cbs.
Proof.
  revert self. induction cbs as [|cb cbs IH]; intros self.
  - simpl. by rewrite app_nil_r, !orb_false_r.
  - change (processMsgs self (cb :: cbs))
      with (processMsgs (dispatch self cb) cbs).
    destruct (IH (dispatch self cb)) as (Hd & He & Hr).
    rewrite Hd, He, Hr. destruct cb; simpl.
    + by rewrite <- app_assoc.
    + by rewrite !orb_true_r.
    + done.
    + done.
Qed.

(** A request returns the bars of its own callbacks, in the order of their
    arrival, when the end of the data is among the callbacks, and nothing
    otherwise: the reset of [requestHistoricalData] keeps the bars of an
    earlier request out, and bars that arrive after the end callback but
    before the wait returns are returned too. *)
Theorem acquired_bars_in_order (self : IBKRAutoFibClient) (cbs : list Callback) :
  (getHistoricalData (requestHistoricalData self true).2 cbs).1
  = if has_end cbs then bars_of cbs else [].
Proof.
  unfold getHistoricalData.
  destruct (processMsgs_state (requestHistoricalData self true).2 cbs)
    as (Hd & He & _).
  change (data_end_received (requestHistoricalData self true).2)
    with false in He.
  change (historical_data (requestHistoricalData self true).2)
    with (@nil Bar) in Hd.
  rewrite He. cbn [orb]. destruct (has_end cbs); cbn [negb fst]; [|done].
  by rewrite Hd.
Qed.

(** The callbacks only append to the buffer and only set the completion
    flag: once set, the flag stays set until the next request, and what is
    in the buffer stays at its front. *)
Theorem callbacks_only_add (self : IBKRAutoFibClient) (cbs : list Callback) :
  historical_data self `prefix_of` historical_data (processMsgs self cbs) /\
  (data_end_received self = true ->
   data_end_received (processMsgs self cbs) = true) /\
  indicator (processMsgs self cbs) = indicator self.
Proof.
  destruct (processMsgs_state self cbs) as (Hd & He & _).
  rewrite Hd, He. split; [by eexists|]. split; [by intros ->|].
  apply processMsgs_indicator.
Qed.

Lemma callbacks_only_add_witness :
  data_end_received Acquisition.ended_empty = true /\
  data_end_received
    (processMsgs Acquisition.ended_empty
       [CbError 1 502 "Couldn't connect to TWS";
        CbHistoricalData 1 Acquisition.bar1]) = true.
Proof.
  split; [reflexivity|].
  apply (callbacks_only_add Acquisition.ended_empty). reflexivity.
Defined.

Lemma poll_ended (self : IBKRAutoFibClient) (batches : list (list Callback)) :
  data_end_received self = true -> poll self batches = self.
Proof. intros He. destruct batches; simpl; [done|]. by rewrite He. Qed.

(** The polling loop dispatches the batches up to the first that brings the
    end of the data. *)
Lemma poll_dispatched (self : IBKRAutoFibClient) (batches : list (list Callback)) :
  data_end_received self = false ->
  poll self batches = processMsgs self (dispatched batches).
Proof.
  revert self. induction batches as [|b bs IH]; intros self He; [done|].
  simpl. rewrite He.
  destruct (processMsgs_state self b) as (_ & Hb & _). rewrite He in Hb.
  destruct (has_end b).
  - by apply poll_ended.
  - rewrite IH by done. by rewrite processMsgs_app.
Qed.

(** [runIndicator], connected, unfolded over the callbacks of its loop. *)
Lemma runIndicator_connected (self : IBKRAutoFibClient)
    (batches : list (list Callback)) (now : string) :
  let cbs := dispatched batches in
  let after := processMsgs (requestHistoricalData self true).2 cbs in
  historical_data after = bars_of cbs /\
  data_end_received after = has_end cbs /\
  indicator after = indicator self /\
  runIndicator self true batches now =
  match (if has_end cbs then bars_of cbs else []) with
  | [] => Some (error_results "No data received", after)
  | bars =>
      '(r, ind) ← calculate (indicator self) now bars;
      Some (r, with_indicator after ind)
  end.
Proof.
  intros cbs after.
  set (s0 := (requestHistoricalData self true).2) in *.
  destruct (processMsgs_state s0 cbs) as (Hd & He & _).
  fold after in Hd, He.
  change (data_end_received s0) with false in He.
  change (historical_data s0) with (@nil Bar) in Hd.
  cbn [orb app] in Hd, He.
  assert (Hind : indicator after = indicator self).
  { unfold after. by rewrite processMsgs_indicator. }
  split; [done|]. split; [done|]. split; [done|].
  unfold runIndicator.
  change (requestHistoricalData self true) with (true, s0).
  cbn [negb]. rewrite poll_dispatched by reflexivity.
  fold cbs. fold after.
  unfold getHistoricalData. cbn [processMsgs foldl].
  rewrite He. destruct (has_end cbs); cbn [negb]; [|done].
  rewrite Hd, Hind. by destruct (bars_of cbs).
Qed.

(** [runIndicator], connected, by the callbacks of its polling loop: when
    they bring the end of the data and one bar at least, the result is that
    of [calculate] on these bars in their order of arrival; otherwise it is
    the error "No data received".  Bars left in the buffer by an earlier
    request are never handed to [calculate]. *)
Theorem runIndicator_by_callbacks (self : IBKRAutoFibClient)
    (batches : list (list Callback)) (now : string) :
  let cbs := dispatched batches in
  let after := processMsgs (requestHistoricalData self true).2 cbs in
  runIndicator self true batches now =
  if has_end cbs && bool_decide (bars_of cbs ≠ [])
  then '(r, ind) ← calculate (indicator self) now (bars_of cbs);
       Some (r, with_indicator after ind)
  else Some (error_results "No data received", after).
Proof.
  intros cbs after.
  destruct (runIndicator_connected self batches now) as (_ & _ & _ & Hrun).
  fold cbs in Hrun. fold after in Hrun. rewrite Hrun.
  destruct (has_end cbs); cbn [andb]; [|done].
  destruct (bars_of cbs) as [|b bs] eqn:Hbars; [done|].
  by rewrite bool_decide_eq_true_2.
Qed.

(** A request that is refused because the socket is not connected resets
    nothing: [runIndicator] reports "Failed to request historical data" and
    leaves the client as it is, so that [getHistoricalData] afterwards still
    returns the bars of the last completed request. *)
Theorem refused_request_keeps_old_bars (self : IBKRAutoFibClient)
    (cbs : list Callback) (batches : list (list Callback)) (now : string) :
  has_end cbs = true ->
  let completed := processMsgs (requestHistoricalData self true).2 cbs in
  runIndicator completed false batches now
  = Some (error_results "Failed to request historical data", completed) /\
  requestHistoricalData completed false = (false, completed) /\
  (getHistoricalData (requestHistoricalData completed false).2 []).1
  = bars_of cbs.
Proof.
  intros Hend completed. split; [reflexivity|]. split; [reflexivity|].
  cbn [requestHistoricalData negb snd].
  unfold getHistoricalData. cbn [processMsgs foldl].
  destruct (processMsgs_state (requestHistoricalData self true).2 cbs)
    as (Hd & He & _).
  fold completed in Hd, He. rewrite Hend, orb_true_r in He.
  change (historical_data (requestHistoricalData self true).2)
    with (@nil Bar) in Hd.
  rewrite He. cbn [negb fst]. by rewrite Hd.
Qed.

Lemma refused_request_keeps_old_bars_witness :
  let cbs := [CbHistoricalData 1 Acquisition.bar1;
              CbHistoricalDataEnd 1 "" ""] in
  let completed :=
    processMsgs (requestHistoricalData IBKRAutoFibClient_new true).2 cbs in
  has_end cbs = true /\
  (getHistoricalData (requestHistoricalData completed false).2 []).1
  = [Acquisition.bar1].
Proof.
  intros cbs completed. split; [reflexivity|].
  apply (refused_request_keeps_old_bars IBKRAutoFibClient_new cbs [] Runs.stamp).
  reflexivity.
Defined.

(** A completed request that brings at least one bar and fewer than the 20
    bars of the client's look-back makes [runIndicator] report
    "Not enough bars", whatever the bars are. *)
Theorem short_request_not_enough_bars (self : IBKRAutoFibClient)
    (batches : list (list Callback)) (now : string) :
  bars_back (indicator self) = 20 -> start_bar (indicator self) = 0 ->
  has_end (dispatched batches) = true ->
  (1 <= length (bars_of (dispatched batches)) < 20)%nat ->
  exists self',
    runIndicator self true batches now
    = Some (error_results "Not enough bars", self') /\
    results (indicator self') = error_results "Not enough bars" /\
    getSignal (indicator self') = "NO_DATA".
Proof.
  intros Hback Hstart Hend Hlen.
  destruct (runIndicator_connected self batches now) as (_ & _ & _ & Hrun).
  cbv zeta in Hrun. rewrite Hend in Hrun. rewrite Hrun.
  destruct (bars_of (dispatched batches)) as [|b bs] eqn:Hbars;
    [simpl in Hlen; lia|].
  unfold calculate. rewrite Hback, Hstart.
  assert (Hguard : (CInt.of_size (length (b :: bs)) <? CInt.add 20 0) = true).
  { unfold CInt.of_size. rewrite CInt_wrap_small.
    - apply Z.ltb_lt. change (CInt.add 20 0) with 20. lia.
    - unfold CInt.INT_MIN, CInt.INT_MAX. lia. }
  rewrite Hguard. cbn [mbind option_bind].
  eexists. split; [reflexivity|]. split; reflexivity.
Qed.

Lemma short_request_not_enough_bars_witness :
  exists self',
    runIndicator IBKRAutoFibClient_new true
      [[CbHistoricalData 1 Acquisition.bar1]; [CbHistoricalDataEnd 1 "" ""]]
      Runs.stamp
    = Some (error_results "Not enough bars", self') /\
    results (indicator self') = error_results "Not enough bars" /\
    getSignal (indicator self') = "NO_DATA".
Proof.
  apply (short_request_not_enough_bars IBKRAutoFibClient_new
           [[CbHistoricalData 1 Acquisition.bar1];
            [CbHistoricalDataEnd 1 "" ""]] Runs.stamp);
    try reflexivity.
  simpl. lia.
Defined.

(** An error-free result of [runIndicator] comes from a completed request,
    is the result stored in the client's indicator, and the signal that
    [main] derives from it is the one [getSignal] of that indicator
    returns. *)
Theorem runIndicator_result_is_stored (self : IBKRAutoFibClient)
    (connected : bool) (batches : list (list Callback)) (now : string)
    (r : FibonacciResults) (self' : IBKRAutoFibClient) :
  runIndicator self connected batches now = Some (r, self') ->
  error r = "" ->
  connected = true /\ data_end_received self' = true /\
  historical_data self' ≠ [] /\
  calculate (indicator self) now (historical_data self')
  = Some (r, indicator self') /\
  results (indicator self') = r /\
  main_signal r = getSignal (indicator self').
Proof.
  intros Hrun Herr. destruct connected.
  2:{ injection Hrun as <- <-. discriminate. }
  destruct (runIndicator_connected self batches now)
    as (Hd & He & _ & Hrun').
  cbv zeta in Hd, He, Hrun'. rewrite Hrun' in Hrun. clear Hrun'.
  set (cbs := dispatched batches) in *.
  set (after := processMsgs (requestHistoricalData self true).2 cbs) in *.
  destruct (has_end cbs) eqn:Hend.
  2:{ injection Hrun as <- <-. discriminate. }
  destruct (bars_of cbs) as [|b bs] eqn:Hbars.
  { injection Hrun as <- <-. discriminate. }
  destruct (calculate (indicator self) now (b :: bs))
    as [[r' ind]|] eqn:Hcalc; [|discriminate].
  cbn [mbind option_bind] in Hrun. injection Hrun as <- <-.
  cbn [with_indicator data_end_received historical_data indicator].
  rewrite Hd, He. repeat (split; [done|]).
  destruct (calculate_cases _ _ _ _ _ Hcalc) as [Hres _].
  split; [done|].
  unfold main_signal, getSignal. rewrite Hres, Herr. reflexivity.
Qed.

Lemma scenario_batches_run :
  exists r self',
    runIndicator (with_indicator IBKRAutoFibClient_new Runs.ind_a) true
      [CbHistoricalData 1 <$> Samples.scenario_a;
       [CbHistoricalDataEnd 1 "" ""]] Runs.stamp = Some (r, self') /\
    error r = "".
Proof. eexists _, _. split; vm_compute; reflexivity. Qed.

Lemma runIndicator_result_is_stored_witness :
  exists r self',
    runIndicator (with_indicator IBKRAutoFibClient_new Runs.ind_a) true
      [CbHistoricalData 1 <$> Samples.scenario_a;
       [CbHistoricalDataEnd 1 "" ""]] Runs.stamp = Some (r, self') /\
    error r = "" /\
    main_signal r = getSignal (indicator self').
Proof.
  destruct scenario_batches_run as (r & self' & Hrun & Herr).
  exists r, self'. split; [done|]. split; [done|].
  by destruct (runIndicator_result_is_stored _ _ _ _ _ _ Hrun Herr)
    as (_ & _ & _ & _ & _ & Hsig).
Defined.

(** * Properties of the report *)

#[global] Instance row_le_total : Total row_le.
Proof.
  intros [a1 b1] [a2 b2]. unfold row_le. simpl.
  destruct (Qclt_le_dec a1 a2) as [Hlt|Hle]; [by left; left|].
  destruct (Qclt_le_dec a2 a1) as [Hlt'|Hle']; [by right; left|].
  assert (a1 = a2) as -> by (by apply Qcle_antisym).
  destruct (Qclt_le_dec b1 b2) as [Hb|Hb].
  - left. right. split; [done|]. by apply Qclt_le_weak.
  - right. by right.
Qed.

#[global] Instance row_le_trans : Transitive row_le.
Proof.
  intros [a1 b1] [a2 b2] [a3 b3]. unfold row_le. simpl.
  intros [H12|[-> H12]] [H23|[-> H23]].
  - left. by eapply Qclt_trans.
  - by left.
  - by left.
  - right. split; [done|]. by eapply Qcle_trans.
Qed.

#[global] Instance row_le_antisym : AntiSymm (=) row_le.
Proof.
  intros [a1 b1] [a2 b2]. unfold row_le. simpl.
  intros [H12|[-> H12]] [H21|[H21' H21]].
  - exfalso. apply (Qclt_irrefl a1). by eapply Qclt_trans.
  - subst. by apply Qclt_irrefl in H12.
  - by apply Qclt_irrefl in H21.
  - f_equal. by apply Qcle_antisym.
Qed.

(** The sorted rows do not depend on the order in which the map was
    enumerated. *)
Lemma sorted_rows_order_independent (rows rows' : list (Qc * Qc)) :
  rows ≡ₚ rows' -> merge_sort row_le rows = merge_sort row_le rows'.
Proof.
  intros Hperm.
  apply (StronglySorted_unique row_le);
    try (apply StronglySorted_merge_sort; apply _).
  by rewrite !merge_sort_Permutation.
Qed.

Lemma mapM_fmap_total {A B C} (f : B -> option C) (u : A -> B) (h : A -> C)
    (l : list A) :
  (forall x, x ∈ l -> f (u x) = Some (h x)) ->
  mapM f (u <$> l) = Some (h <$> l).
Proof.
  induction l as [|x l IH]; intros Hf; [done|].
  change (mapM f (u <$> x :: l))
    with (y ← f (u x); k ← mapM f (u <$> l); mret (y :: k)).
  rewrite (Hf x) by left. rewrite IH; [done|].
  intros y Hy. apply Hf. by right.
Qed.

(** After an error-free call the rows exist and are the sorted list of the
    percentages and prices of the levels that were configured. *)
Lemma levels_sorted_after_call self now bars r self' :
  calculate self now bars = Some (r, self') -> error r = "" ->
  exists (bull : bool) (h l : Qc),
    (l < h)%Qc /\
    trend r = (if bull then "BULLISH" else "BEARISH") /\
    fibo_levels r = level_price bull h l <$> fibo_level_values self /\
    levels_sorted self' =
    Some (merge_sort row_le
            ((λ kq : string * Qc,
                ((kq.2 * dbl 100)%Qc, level_price bull h l kq.2))
               <$> map_to_list (fibo_level_values self))).
Proof.
  intros Hcalc Herr.
  destruct (calculate_cases _ _ _ _ _ Hcalc) as [Hres _].
  destruct (calculate_level_lookup _ _ _ _ _ Hcalc Herr) as (_ & _ & Hmap).
  destruct (calculate_inv _ _ _ _ _ Hcalc Herr)
    as (hi & li & hb & lb & back & H).
  destruct H.
  exists (string_gt (time hb) (time lb)), (high hb), (low lb).
  split; [done|]. split; [done|]. split; [done|].
  unfold levels_sorted. rewrite Hres, cs_levels0, map_to_list_fmap.
  erewrite mapM_fmap_total; [reflexivity|].
  intros [k q] Hkq%elem_of_map_to_list. cbn [prod_map fst snd id].
  rewrite Hmap. destruct (decide _) as [Hk|Hk].
  - unfold read_ratio. rewrite Hkq. reflexivity.
  - rewrite Hkq. reflexivity.
Qed.

(** Right after an error-free [calculate], [printReport] does not throw: it
    reports the stored result with one row per configured level, each row
    the percentage (ratio times 100) and the price of a level, and the rows
    in ascending order of percentage. *)
Theorem report_lists_levels_by_percent self now bars r self' :
  calculate self now bars = Some (r, self') -> error r = "" ->
  exists rows,
    printReport self' = Some (ReportBody r rows (getSignal self')) /\
    length rows = size (fibo_level_values self) /\
    Sorted row_le rows /\
    (forall pct price,
        (pct, price) ∈ rows <->
        exists k q, fibo_level_values self !! k = Some q /\
                    pct = (q * dbl 100)%Qc /\
                    fibo_levels r !! k = Some price).
Proof.
  intros Hcalc Herr.
  destruct (calculate_cases _ _ _ _ _ Hcalc) as [Hres _].
  destruct (levels_sorted_after_call _ _ _ _ _ Hcalc Herr)
    as (bull & h & l & Hlh & Htrend & Hlevels & Hrows).
  eexists. split.
  { unfold printReport. rewrite Hres, Herr, Hrows. reflexivity. }
  split.
  { rewrite merge_sort_Permutation, length_fmap, length_map_to_list. done. }
  split; [apply Sorted_merge_sort; apply _|].
  intros pct price. rewrite merge_sort_Permutation, list_elem_of_fmap.
  rewrite Hlevels. split.
  - intros ([k q] & Heq & Hin%elem_of_map_to_list).
    injection Heq as -> ->. exists k, q. cbn [snd].
    rewrite lookup_fmap, Hin. done.
  - intros (k & q & Hk & -> & Hp). rewrite lookup_fmap, Hk in Hp.
    injection Hp as <-. exists (k, q). split; [done|].
    by apply elem_of_map_to_list.
Qed.

Lemma report_lists_levels_by_percent_witness :
  exists rows,
    printReport Runs.ind_a'
    = Some (ReportBody Runs.res_a rows (getSignal Runs.ind_a')) /\
    length rows = 10%nat /\ Sorted row_le rows.
Proof.
  destruct (report_lists_levels_by_percent Runs.ind_a Runs.stamp
              Samples.scenario_a Runs.res_a Runs.ind_a' run_a_defined eq_refl)
    as (rows & Hrep & Hlen & Hsorted & _).
  exists rows. split; [done|]. split; [|done].
  rewrite Hlen. reflexivity.
Defined.




(** [printReport] throws when a level of the stored result has no ratio in
    the level map any more, as after [setFibonacciLevels] with a map that
    lacks one of the names the result was computed for. *)
Theorem report_throws_on_missing_level (self : AutoFibIndicator)
    (levels : gmap string Qc) (k : string) (price : Qc) :
  error (results self) = "" ->
  fibo_levels (results self) !! k = Some price ->
  levels !! k = None ->
  printReport (setFibonacciLevels self levels) = None.
Proof.
  intros Herr Hk Hmiss. unfold printReport, levels_sorted.
  cbn [setFibonacciLevels results fibo_level_values]. rewrite Herr.
  cbn [String.eqb negb].
  assert (Hnone : mapM (λ level : string * Qc,
                          ratio ← levels !! level.1;
                          Some ((ratio * dbl 100)%Qc, level.2))
                       (map_to_list (fibo_levels (results self))) = None).
  { apply mapM_None, Exists_exists. exists (k, price).
    split; [by apply elem_of_map_to_list|]. cbn [fst]. by rewrite Hmiss. }
  by rewrite Hnone.
Qed.

Lemma report_throws_on_missing_level_witness :
  (error (results Runs.ind_a') = "" /\
   is_Some (fibo_levels (results Runs.ind_a') !! "level_9")) /\
  printReport (setFibonacciLevels Runs.ind_a' Runs.swapped_levels) = None.
Proof.
  split; [split; [reflexivity | vm_compute; eauto]|].
  destruct (fibo_levels (results Runs.ind_a') !! "level_9") as [p|] eqn:Hp;
    [|vm_compute in Hp; discriminate].
  apply (report_throws_on_missing_level Runs.ind_a' Runs.swapped_levels
           "level_9" p); [reflexivity | exact Hp | reflexivity].
Defined.

(** ** The guard of the two scans *)

(** For arguments whose sum fits an [int], [findLowestBar] and
    [findHighestBar] return, and return [-1] exactly when [start] is
    negative, [count] is not positive or the window ends past the vector;
    they never read the vector then. *)
Theorem find_bar_fails_iff_window_invalid (bars : list Bar) (start count : Z) :
  CInt.INT_MIN <= start + count <= CInt.INT_MAX ->
  Z.of_nat (length bars) <= CInt.INT_MAX ->
  exists lowest highest,
    findLowestBar bars start count = Some lowest /\
    findHighestBar bars start count = Some highest /\
    (lowest = -1 <-> highest = -1) /\
    (lowest = -1 <->
     start < 0 \/ count <= 0 \/ Z.of_nat (length bars) < start + count) /\
    (lowest ≠ -1 -> start <= lowest < start + count /\
                    start <= highest < start + count).
Proof.
  intros Hsum Hmax.
  assert (Hsz : CInt.of_size (length bars) = Z.of_nat (length bars)).
  { apply CInt_wrap_small. unfold CInt.INT_MIN, CInt.INT_MAX in *. lia. }
  assert (Hadd : CInt.add start count = start + count)
    by (by apply CInt_wrap_small).
  destruct (decide (start < 0 \/ count <= 0
                    \/ Z.of_nat (length bars) < start + count)) as [Hbad|Hok].
  - assert (Hg : (start <? 0) || (count <=? 0)
                 || (CInt.of_size (length bars) <? CInt.add start count)
                 = true).
    { rewrite Hsz, Hadd, !orb_true_iff, Z.ltb_lt, Z.leb_le, Z.ltb_lt. tauto. }
    exists (-1), (-1). unfold findLowestBar, findHighestBar. rewrite Hg.
    repeat split; done.
  - destruct (findLowestBar_first bars start count)
      as (li & Hli & Hlw & _); [lia..|].
    destruct (findHighestBar_first bars start count)
      as (hi & Hhi & Hhw & _); [lia..|].
    exists li, hi. split; [done|]. split; [done|].
    split; [lia|]. split; [|done]. split; [lia|tauto].
Qed.

Lemma find_bar_fails_iff_window_invalid_witness :
  exists lowest highest,
    findLowestBar Samples.scenario_a 3 5 = Some lowest /\
    findHighestBar Samples.scenario_a 3 5 = Some highest /\
    (lowest = -1 <->
     3 < 0 \/ 5 <= 0 \/ Z.of_nat (length Samples.scenario_a) < 3 + 5).
Proof.
  destruct (find_bar_fails_iff_window_invalid Samples.scenario_a 3 5)
    as (lo & hi & Hlo & Hhi & _ & Hiff & _).
  - unfold CInt.INT_MIN, CInt.INT_MAX. lia.
  - unfold CInt.INT_MAX. simpl. lia.
  - by exists lo, hi.
Defined.

(** * Properties of the decimal stub *)

(** [div] never divides by zero: a zero divisor gives 0, and any other
    divisor gives the quotient rounded down, which is a [Decimal] again and
    at most the dividend. *)
Theorem decimal_div_total (width d1 d2 : Z) :
  DecimalFunctions.is_decimal width d1 ->
  DecimalFunctions.is_decimal width d2 ->
  DecimalFunctions.is_decimal width (DecimalFunctions.div d1 d2) /\
  DecimalFunctions.div d1 d2 <= d1 /\
  (d2 = 0 -> DecimalFunctions.div d1 d2 = 0) /\
  (d2 ≠ 0 ->
   DecimalFunctions.div d1 d2 * d2 <= d1
   < DecimalFunctions.div d1 d2 * d2 + d2).
Proof.
  unfold DecimalFunctions.is_decimal, DecimalFunctions.div.
  intros [H1 H1'] [H2 H2'].
  destruct (Z.eqb_spec d2 0) as [->|Hne].
  - repeat split; (lia || done).
  - assert (Hpos : 0 < d2) by lia.
    pose proof (Z.div_pos d1 d2 H1 Hpos) as Hq.
    pose proof (Z.mul_div_le d1 d2 Hpos) as Hle.
    pose proof (Z.mul_succ_div_gt d1 d2 Hpos) as Hgt.
    assert (Hqle : d1 / d2 <= d1) by (apply Z.div_le_upper_bound; nia).
    repeat split; (lia || done).
Qed.

Lemma decimal_div_total_witness :
  (DecimalFunctions.is_decimal 64 7 /\ DecimalFunctions.is_decimal 64 0) /\
  DecimalFunctions.div 7 0 = 0 /\ DecimalFunctions.div 7 2 = 3.
Proof.
  assert (H7 : DecimalFunctions.is_decimal 64 7)
    by (unfold DecimalFunctions.is_decimal, DecimalFunctions.modulus; lia).
  assert (H0 : DecimalFunctions.is_decimal 64 0)
    by (unfold DecimalFunctions.is_decimal, DecimalFunctions.modulus; lia).
  split; [done|]. split; [|reflexivity].
  by apply (decimal_div_total 64 7 0 H7 H0).
Defined.

(** [add] and [sub] wrap around and undo each other, overflow or not:
    [sub (add a b) b = a] and [add (sub a b) b = a], and both results are
    [Decimal]s. *)
Theorem decimal_add_sub_round_trip (width a b : Z) :
  0 <= width ->
  DecimalFunctions.is_decimal width a ->
  DecimalFunctions.is_decimal width b ->
  DecimalFunctions.is_decimal width (DecimalFunctions.add width a b) /\
  DecimalFunctions.is_decimal width (DecimalFunctions.sub width a b) /\
  DecimalFunctions.sub width (DecimalFunctions.add width a b) b = a /\
  DecimalFunctions.add width (DecimalFunctions.sub width a b) b = a.
Proof.
  unfold DecimalFunctions.is_decimal, DecimalFunctions.add,
    DecimalFunctions.sub, DecimalFunctions.modulus.
  intros Hw Ha Hb.
  assert (Hm : 0 < 2 ^ width) by (by apply Z.pow_pos_nonneg).
  split; [by apply Z.mod_pos_bound|]. split; [by apply Z.mod_pos_bound|].
  split.
  - rewrite Zminus_mod_idemp_l. replace (a + b - b) with a by lia.
    by apply Z.mod_small.
  - rewrite Zplus_mod_idemp_l. replace (a - b + b) with a by lia.
    by apply Z.mod_small.
Qed.

Lemma decimal_add_sub_round_trip_witness :
  DecimalFunctions.add 64 (2 ^ 64 - 1) 5 = 4 /\
  DecimalFunctions.sub 64 (DecimalFunctions.add 64 (2 ^ 64 - 1) 5) 5
  = 2 ^ 64 - 1.
Proof.
  split; [reflexivity|].
  apply (decimal_add_sub_round_trip 64 (2 ^ 64 - 1) 5);
    unfold DecimalFunctions.is_decimal, DecimalFunctions.modulus; lia.
Defined.
